(** * testsystem.c: SHTW1/SHTC1 read-out through the EK-H5 io-warrior bridge

    A shallow embedding of [src/testsystem.c] and the properties of its
    checksum, unit conversion, measurement, start-up and configuration code.

    Conventions of the embedding:
    - C integers are [Z]; a store into a [uint8_t], [uint16_t] or [uint32_t]
      object is written out with [uint8], [uint16], [uint32];
    - [float] is IEEE-754 binary32 and [double] binary64, both carried by
      [spec_float] with the operations of [SpecFloat] at (24,128) and
      (53,1024); expressions are evaluated in their own type
      (FLT_EVAL_METHOD 0, the x86_64 target named in the file header);
    - a (pointer, count) pair over an array is the list of the [count]
      elements it designates;
    - the io-warrior library (iowkit.h) is outside the repository: its two
      calls are parameters of the model, and every call is recorded in a
      trace together with every [printf]. *)

From Stdlib Require Import ZArith List Bool Lia String Ascii QArith Lqa.
From Stdlib Require Import Floats.SpecFloat.
Import ListNotations.
Open Scope Z_scope.

(** ** Machine integers *)

Definition uint8 (z : Z) : Z := Z.land z 0xFF.
Definition uint16 (z : Z) : Z := Z.land z 0xFFFF.
Definition uint32 (z : Z) : Z := Z.land z 0xFFFFFFFF.

(** ** Constants of the source *)

Definition I2C_WRITE_COMMAND : Z := 0xE0.
Definition I2C_READ_COMMAND : Z := 0xE1.
Definition CRC_POLYNOMIAL : Z := 0x131.

Definition READ_ID : Z := 0xEFC8.
Definition SOFT_RESET : Z := 0x805D.
Definition MEASURE_T_RH_CLKSTR : Z := 0x7CA2.

Definition MIN_CONF_LINE_LENGTH : Z := 4.
Definition MAX_CONF_LINE_LENGTH : Z := 40.
Definition MAX_SENSOR_NAME_LENGTH : Z := 30.

(** ** VerifyChecksum *)

Module CRC.

(** One pass of the inner loop body:
    [if (crc & 0x80) crc = (crc << 1) ^ CRC_POLYNOMIAL; else crc = (crc << 1);]
    with the store into the [uint8_t] object. *)
Definition shift_step (crc : Z) : Z :=
  if negb (Z.land crc 0x80 =? 0)
  then uint8 (Z.lxor (Z.shiftl crc 1) CRC_POLYNOMIAL)
  else uint8 (Z.shiftl crc 1).

(** [for (bit_counter = 8; bit_counter > 0; --bit_counter)] *)
Fixpoint bit_loop (bit_counter : nat) (crc : Z) : Z :=
  match bit_counter with
  | O => crc
  | S n => bit_loop n (shift_step crc)
  end.

(** [for (byte_counter = 0; byte_counter < bytes_count; byte_counter++)]
    over the span [data[0 .. bytes_count)]. *)
Fixpoint byte_loop (data : list Z) (crc : Z) : Z :=
  match data with
  | [] => crc
  | b :: rest => byte_loop rest (bit_loop 8 (uint8 (Z.lxor crc b)))
  end.

(** The value of [crc] when the outer loop is left. *)
Definition compute (data : list Z) : Z := byte_loop data 0xFF.

(** [if(crc != received_checksum) return -2; else return 0;]
    The parameter is a [uint8_t]: the argument is converted at the call. *)
Definition VerifyChecksum (data : list Z) (received_checksum : Z) : Z :=
  let received_checksum := uint8 received_checksum in
  if negb (compute data =? received_checksum) then -2 else 0.

(** The reference algorithm as the specification words it: a register that
    is shifted left one bit at a time, most significant bit first, and
    XOR-ed with the 9-bit polynomial 0x131 whenever the shift overflows the
    8-bit register; 8 shifts per byte, bytes XOR-ed in one at a time,
    starting from 0xFF. *)
Definition ref_shift (reg : Z) : Z :=
  let shifted := 2 * reg in
  if 256 <=? shifted then Z.lxor shifted 0x131 else shifted.

Definition ref_byte (reg b : Z) : Z :=
  Nat.iter 8 ref_shift (Z.lxor reg b).

Definition reference (data : list Z) : Z := fold_left ref_byte data 0xFF.

Definition is_byte (b : Z) : Prop := 0 <= b < 256.

End CRC.

(** ** Floating point *)

Definition float := spec_float.
Definition double := spec_float.

Module F32.
Definition prec : Z := 24.
Definition emax : Z := 128.
Definition add : float -> float -> float := SFadd prec emax.
Definition sub : float -> float -> float := SFsub prec emax.
Definition mul : float -> float -> float := SFmul prec emax.
Definition div : float -> float -> float := SFdiv prec emax.
Definition ltb : float -> float -> bool := SFltb.
Definition leb : float -> float -> bool := SFleb.
(** Conversion of an integer, round to nearest even. *)
Definition of_Z (z : Z) : float := binary_normalize prec emax z 0 false.
(** Conversion of a binary64 value, round to nearest even. *)
Definition of_double (d : double) : float :=
  match d with
  | S754_finite s m e => binary_round prec emax s m e
  | _ => d
  end.
(** The decimal literal [n / 10^k], rounded once. *)
Definition of_decimal (n : Z) (pow10 : Z) : float := div (of_Z n) (of_Z pow10).
End F32.

Module F64.
Definition prec : Z := 53.
Definition emax : Z := 1024.
Definition div : double -> double -> double := SFdiv prec emax.
Definition ltb : double -> double -> bool := SFltb.
Definition of_Z (z : Z) : double := binary_normalize prec emax z 0 false.
(** Promotion of a binary32 value: exact, the mantissa is realigned. *)
Definition of_float (f : float) : double :=
  match f with
  | S754_finite s m e => binary_round prec emax s m e
  | _ => f
  end.
(** A [double] literal [n / 10^k]. *)
Definition of_decimal (n : Z) (pow10 : Z) : double := div (of_Z n) (of_Z pow10).
End F64.

(** The rational number a finite float stands for (0 otherwise). *)
Definition float_value (f : spec_float) : Q :=
  match f with
  | S754_finite s m e =>
      let q := if 0 <=? e then inject_Z (Zpos m * 2 ^ e)
               else Qmake (Zpos m) (Z.to_pos (2 ^ (- e))) in
      if s then Qopp q else q
  | _ => 0%Q
  end.

Definition is_finite (f : spec_float) : bool :=
  match f with
  | S754_finite _ _ _ | S754_zero _ => true
  | _ => false
  end.

(** ** ConvertTemperature, ConvertHumidity *)

(** [return 175 * (float)sensor_value / 65536 - 45;]
    The parameter is a [uint16_t]: the argument is converted at the call. *)
Definition ConvertTemperature (sensor_value : Z) : float :=
  let sensor_value := uint16 sensor_value in
  F32.sub (F32.div (F32.mul (F32.of_Z 175) (F32.of_Z sensor_value))
                   (F32.of_Z 65536))
          (F32.of_Z 45).

(** [return 100 * (float)sensor_value / 65536;] *)
Definition ConvertHumidity (sensor_value : Z) : float :=
  let sensor_value := uint16 sensor_value in
  F32.div (F32.mul (F32.of_Z 100) (F32.of_Z sensor_value)) (F32.of_Z 65536).

(** Dew point coefficients: [double] literals in the source. *)
Definition T_PLUS : double := F64.of_decimal 24312 100.
Definition M_PLUS : double := F64.of_decimal 1762 100.
Definition T_MINUS : double := F64.of_decimal 27262 100.
Definition M_MINUS : double := F64.of_decimal 2246 100.

(** ** The bridge and its reports *)

(** [IOWKIT_HANDLE] is a pointer; 0 is [NULL]. *)
Definition IOWKIT_HANDLE := Z.

(** [IOWKIT_SPECIAL_REPORT]: a report ID and 7 payload bytes
    ([IOWKIT_SPECIAL_REPORT_SIZE] is 8). *)
Record IOWKIT_SPECIAL_REPORT := {
  ReportID : Z;
  Bytes : list Z
}.

(** Reading [report.Bytes[i]], an unsigned char. *)
Definition byte_of (report : IOWKIT_SPECIAL_REPORT) (i : nat) : Z :=
  uint8 (nth i (Bytes report) 0).

(** [&report.Bytes[i]] with a count of 2: the two bytes of a word. *)
Definition word_span (report : IOWKIT_SPECIAL_REPORT) (i : nat) : list Z :=
  [byte_of report i; byte_of report (S i)].

(** [(report.Bytes[i] << 8) | report.Bytes[i+1]] *)
Definition word_of (report : IOWKIT_SPECIAL_REPORT) (i : nat) : Z :=
  Z.lor (Z.shiftl (byte_of report i) 8) (byte_of report (S i)).

(** Conversion to [int8_t]. *)
Definition int8 (z : Z) : Z :=
  let u := uint8 z in if u <? 128 then u else u - 256.

(** What the program prints, one constructor per [printf] of the modelled
    functions, with the values it formats. *)
Inductive message :=
| ReadNotAcknowledged
| WriteNotAcknowledged
| MeasureCommandError
| TemperatureChecksumError
| HumidityChecksumError
| MissingConfigurationFile
| ReadingConfiguration
| TooFewCharacters (lines_iterator read : Z)
| TooManyCharacters (lines_iterator read : Z)
| NoDataAfterSeparator (lines_iterator : Z) (line : string)
| MissingSeparator (lines_iterator : Z) (line : string)
| NoDataBeforeSeparator (lines_iterator : Z) (line : string)
| NotADecimalNumber (lines_iterator : Z) (line number_string : string).

Inductive event :=
| Written (handle : IOWKIT_HANDLE) (report : IOWKIT_SPECIAL_REPORT)
| ReadBack (handle : IOWKIT_HANDLE) (report : IOWKIT_SPECIAL_REPORT)
| Printed (m : message).

(** [SHTW1_SENSOR] *)
Record SHTW1_SENSOR := {
  stick_serial_number : Z;
  usb_stick_handle : IOWKIT_HANDLE;
  temperature : float;
  humidity : float;
  dew_point : float;
  name : string;
  info : string
}.

(** The three cells [GetMeasurements] writes through its pointers. *)
Record outputs := {
  out_temperature : float;
  out_humidity : float;
  out_dew_point : float
}.

(** The report [ReadI2c] sends: cleared by [memset], then
    [ReportID = 0x03], [Bytes[0] = count], [Bytes[1] = I2C_READ_COMMAND]. *)
Definition read_request (count : Z) : IOWKIT_SPECIAL_REPORT :=
  {| ReportID := 0x03;
     Bytes := [uint8 count; I2C_READ_COMMAND; 0; 0; 0; 0; 0] |}.

(** The report [WriteI2C] sends: [ReportID = 0x02], [Bytes[0] = 0xC3],
    [Bytes[1] = I2C_WRITE_COMMAND], then the two bytes of the command. *)
Definition write_request (command : Z) : IOWKIT_SPECIAL_REPORT :=
  {| ReportID := 0x02;
     Bytes := [0xC3; I2C_WRITE_COMMAND;
               uint8 (Z.land (Z.shiftr command 8) 0xFF);
               uint8 (Z.land command 0xFF); 0; 0; 0] |}.

(** Storing into [table[n]]. *)
Fixpoint store_at {A} (n : nat) (x : A) (l : list A) : list A :=
  match l, n with
  | [], _ => []
  | _ :: rest, O => x :: rest
  | y :: rest, S k => y :: store_at k x rest
  end.

(** [RH / 100.0] as it reaches [logf]: [100.0] is a [double], so the
    quotient is formed in binary64 and converted to the [float] parameter. *)
Definition percent_ratio (RH : float) : float :=
  F32.of_double (F64.div (F64.of_float RH) (F64.of_Z 100)).

(** The io-warrior library and [logf] of libm are not part of the
    repository: the state of the attached devices is a [World], a written
    report changes it and a read returns the report the device sends. *)
Class Platform := {
  World : Type;
  IowKitWrite : IOWKIT_HANDLE -> IOWKIT_SPECIAL_REPORT -> World -> World;
  IowKitRead : IOWKIT_HANDLE -> World -> IOWKIT_SPECIAL_REPORT * World;
  logf : float -> float
}.

Section Device.

Context {platform : Platform}.

Record state := {
  world : World;
  trace : list event
}.

Definition M (A : Type) : Type := state -> A * state.

Definition ret {A} (a : A) : M A := fun st => (a, st).

Definition bind {A B} (m : M A) (k : A -> M B) : M B :=
  fun st => let (a, st') := m st in k a st'.

Notation "x <- m ;; k" := (bind m (fun x => k))
  (at level 61, m at next level, right associativity).
Notation "m ;;; k" := (bind m (fun _ => k))
  (at level 61, right associativity).

Definition log (e : event) : M unit :=
  fun st => (tt, {| world := world st; trace := trace st ++ [e] |}).

Definition printf (m : message) : M unit := log (Printed m).

Definition kit_write (handle : IOWKIT_HANDLE) (report : IOWKIT_SPECIAL_REPORT)
  : M unit :=
  fun st => (tt, {| world := IowKitWrite handle report (world st);
                    trace := trace st ++ [Written handle report] |}).

Definition kit_read (handle : IOWKIT_HANDLE) : M IOWKIT_SPECIAL_REPORT :=
  fun st => let (report, w) := IowKitRead handle (world st) in
            (report, {| world := w; trace := trace st ++ [ReadBack handle report] |}).

(** One exchange on a handle: the report that comes back for a request,
    and the world after it. *)
Definition transact (handle : IOWKIT_HANDLE) (request : IOWKIT_SPECIAL_REPORT)
    (w : World) : IOWKIT_SPECIAL_REPORT * World :=
  IowKitRead handle (IowKitWrite handle request w).

Definition ReadI2c (handle : IOWKIT_HANDLE) (count : Z) : M IOWKIT_SPECIAL_REPORT :=
  let report := read_request count in
  kit_write handle report ;;;
  report <- kit_read handle ;;
  if negb (Z.land (byte_of report 0) 0x80 =? 0)
  then printf ReadNotAcknowledged ;;; ret report
  else ret report.

Definition WriteI2C (handle : IOWKIT_HANDLE) (command : Z) : M Z :=
  let report := write_request command in
  kit_write handle report ;;;
  report <- kit_read handle ;;
  if negb (Z.land (byte_of report 0) 0x80 =? 0)
  then printf WriteNotAcknowledged ;;; ret (-1)
  else ret (int8 (byte_of report 0)).

(** The dew point expression of [GetMeasurements] and
    [UpdateSensorsMeasurements], on [float] variables [Tn], [m], [T], [RH]:
    [Tn * ( logf( RH / 100.0 ) + m*T / (Tn + T) )
        / ( m - logf( RH / 100.0 ) - m*T / (Tn + T) )]. *)
Definition dew_point_expr (Tn m T RH : float) : float :=
  let ln_rh := logf (percent_ratio RH) in
  let frac := F32.div (F32.mul m T) (F32.add Tn T) in
  F32.div (F32.mul Tn (F32.add ln_rh frac))
          (F32.sub (F32.sub m ln_rh) frac).

(** [RH > 0.0]: compared in [double]. *)
Definition positive_humidity (RH : float) : bool :=
  F64.ltb (F64.of_Z 0) (F64.of_float RH).

(** [T > 0]: the integer is converted to [float]. *)
Definition positive_temperature (T : float) : bool :=
  F32.ltb (F32.of_Z 0) T.

(** The assignments to [Tn] and [m], [float] objects. *)
Definition coefficients (T : float) : float * float :=
  if positive_temperature T
  then (F32.of_double T_PLUS, F32.of_double M_PLUS)
  else (F32.of_double T_MINUS, F32.of_double M_MINUS).

Definition GetMeasurements (handle : IOWKIT_HANDLE) (out : outputs)
  : M (Z * outputs) :=
  acked <- WriteI2C handle MEASURE_T_RH_CLKSTR ;;
  if negb (acked =? 3) then
    printf MeasureCommandError ;;; ret (-1, out)
  else
    return_report <- ReadI2c handle 0x06 ;;
    if Z.land (byte_of return_report 0) 0x80 =? 0 then
      if negb (CRC.VerifyChecksum (word_span return_report 1)
                                  (byte_of return_report 3) =? 0)
      then printf TemperatureChecksumError ;;; ret (-2, out)
      else
        let out := {| out_temperature := ConvertTemperature (word_of return_report 1);
                      out_humidity := out_humidity out;
                      out_dew_point := out_dew_point out |} in
        if negb (CRC.VerifyChecksum (word_span return_report 4)
                                    (byte_of return_report 6) =? 0)
        then printf HumidityChecksumError ;;; ret (-3, out)
        else
          let out := {| out_temperature := out_temperature out;
                        out_humidity := ConvertHumidity (word_of return_report 4);
                        out_dew_point := out_dew_point out |} in
          if positive_humidity (out_humidity out) then
            let (Tn, m) := coefficients (out_temperature out) in
            let T := out_temperature out in
            let RH := out_humidity out in
            ret (0, {| out_temperature := out_temperature out;
                       out_humidity := out_humidity out;
                       out_dew_point := dew_point_expr Tn m T RH |})
          else ret (0, out)
    else ret (-1, out).

(** The body run for a sensor whose handle is set: the measurement
    transaction, written out in the loop as in [GetMeasurements] but on the
    locals [T], [RH], [DP], which reach the table only on the success path.
    [DP] holds 1000 from [T, RH, DP = 1000;]. Every path returns. *)
Definition measure_into_table (sensors_table : list SHTW1_SENSOR)
    (number_of_sensors : nat) (sensor : SHTW1_SENSOR)
  : M (list SHTW1_SENSOR * Z) :=
  let DP := F32.of_Z 1000 in
  let handle := usb_stick_handle sensor in
  acked <- WriteI2C handle MEASURE_T_RH_CLKSTR ;;
  if negb (acked =? 3) then
    printf MeasureCommandError ;;; ret (sensors_table, -1)
  else
    return_report <- ReadI2c handle 0x06 ;;
    if Z.land (byte_of return_report 0) 0x80 =? 0 then
      if negb (CRC.VerifyChecksum (word_span return_report 1)
                                  (byte_of return_report 3) =? 0)
      then printf TemperatureChecksumError ;;; ret (sensors_table, -2)
      else
        let T := ConvertTemperature (word_of return_report 1) in
        if negb (CRC.VerifyChecksum (word_span return_report 4)
                                    (byte_of return_report 6) =? 0)
        then printf HumidityChecksumError ;;; ret (sensors_table, -3)
        else
          let RH := ConvertHumidity (word_of return_report 4) in
          let DP := if positive_humidity RH
                    then let (Tn, m) := coefficients T in dew_point_expr Tn m T RH
                    else DP in
          let updated := {| stick_serial_number := stick_serial_number sensor;
                            usb_stick_handle := usb_stick_handle sensor;
                            temperature := T;
                            humidity := RH;
                            dew_point := DP;
                            name := name sensor;
                            info := info sensor |} in
          ret (store_at number_of_sensors updated sensors_table, 0)
    else ret (sensors_table, -1).

(** [while(number_of_sensors) { number_of_sensors--; ... }].
    The result is [None] when control reaches the closing brace of the
    function without a [return]. *)
Fixpoint UpdateSensorsMeasurements_loop (sensors_table : list SHTW1_SENSOR)
    (number_of_sensors : nat) : M (list SHTW1_SENSOR * option Z) :=
  match number_of_sensors with
  | O => ret (sensors_table, None)
  | S n =>
      match nth_error sensors_table n with
      | Some sensor =>
          if negb (usb_stick_handle sensor =? 0) then
            r <- measure_into_table sensors_table n sensor ;;
            ret (fst r, Some (snd r))
          else UpdateSensorsMeasurements_loop sensors_table n
      | None => UpdateSensorsMeasurements_loop sensors_table n
      end
  end.

Definition UpdateSensorsMeasurements (sensors_table : list SHTW1_SENSOR)
  : M (list SHTW1_SENSOR * option Z) :=
  UpdateSensorsMeasurements_loop sensors_table (List.length sensors_table).

End Device.

(** ** LoadConfiguration *)

(** *** C strings

    A buffer is the [string] of its characters; the C string it holds ends
    before the first NUL. *)
Definition NUL : ascii := "000"%char.
Definition SEPARATION_CHAR : ascii := "009"%char.
Definition NEWLINE : ascii := "010"%char.
Definition SENSOR_BINDING_LIST_START : string := "sensors:".
Definition BINDING_LIST_STOP : string := "end.".

Fixpoint c_str (buffer : string) : string :=
  match buffer with
  | EmptyString => EmptyString
  | String c rest => if Ascii.eqb c NUL then EmptyString else String c (c_str rest)
  end.

(** [buffer[n] = c;] *)
Fixpoint poke (n : nat) (c : ascii) (buffer : string) : string :=
  match buffer, n with
  | EmptyString, _ => EmptyString
  | String _ rest, O => String c rest
  | String d rest, S k => String d (poke k c rest)
  end.

(** [strchr(buffer, c) - buffer] for a character other than NUL, [None]
    when [strchr] returns [NULL]. *)
Fixpoint strchr (buffer : string) (c : ascii) : option nat :=
  match buffer with
  | EmptyString => None
  | String d rest =>
      if Ascii.eqb d NUL then None
      else if Ascii.eqb d c then Some O
      else option_map S (strchr rest c)
  end.

(** [strcmp(buffer, literal) == 0] *)
Definition strcmp_eq (buffer literal : string) : bool :=
  String.eqb (c_str buffer) literal.

(** *** strtol in base 10, with a 64-bit [long] *)
Definition LONG_MAX : Z := 2 ^ 63 - 1.
Definition LONG_MIN : Z := - 2 ^ 63.

Definition isspace (c : ascii) : bool :=
  let n := nat_of_ascii c in
  (Nat.eqb n 32 || (Nat.leb 9 n && Nat.leb n 13))%bool.

Definition digit_of (c : ascii) : option Z :=
  let n := Z.of_nat (nat_of_ascii c) in
  if (48 <=? n) && (n <=? 57) then Some (n - 48) else None.

Fixpoint skip_spaces (s : string) : string :=
  match s with
  | String c rest => if isspace c then skip_spaces rest else s
  | EmptyString => s
  end.

Fixpoint digits_value (s : string) (acc : Z) : Z :=
  match s with
  | String c rest =>
      match digit_of c with
      | Some d => digits_value rest (10 * acc + d)
      | None => acc
      end
  | EmptyString => acc
  end.

Definition strtol (nptr : string) : Z :=
  let s := skip_spaces nptr in
  let '(negative, s) :=
    match s with
    | String "-"%char rest => (true, rest)
    | String "+"%char rest => (false, rest)
    | _ => (false, s)
    end in
  let v := digits_value s 0 in
  if negative then Z.max LONG_MIN (- v) else Z.min LONG_MAX v.

(** *** The parser *)

Record load_state := {
  loaded_table : list SHTW1_SENSOR;
  sensors_iterator : Z;
  lines_iterator : Z;
  printed : list message
}.

Definition print (m : message) (st : load_state) : load_state :=
  {| loaded_table := loaded_table st;
     sensors_iterator := sensors_iterator st;
     lines_iterator := lines_iterator st;
     printed := printed st ++ [m] |}.

Inductive line_result :=
| NextLine (st : load_state)
| BreakLoop (st : load_state)
| UndefinedBehaviour.

(** [SHTW1_SENSOR new_sensor = { .temperature = 1000.0, .humidity = 1000.0,
    .dew_point = 1000.0, .info = "ERROR: USB Stick not found!\0" };]
    then the serial number and the name are filled in; the handle is the
    null pointer of the initialiser. *)
Definition new_sensor (serial : Z) (sensor_name : string) : SHTW1_SENSOR :=
  {| stick_serial_number := serial;
     usb_stick_handle := 0;
     temperature := F32.of_Z 1000;
     humidity := F32.of_Z 1000;
     dew_point := F32.of_Z 1000;
     name := sensor_name;
     info := "ERROR: USB Stick not found!" |}.

(** The body of the second [while], for one line returned by [getline]
    ([read] characters, the newline among them).
    [null_minus_line] is the [int] that [strchr(...) - line] yields when
    [strchr] returns the null pointer. Writes past [number_string[29]],
    [name[29]] or the end of the table are [UndefinedBehaviour]. *)
Definition parse_line (null_minus_line : Z) (st : load_state) (line : string)
  : line_result :=
  let read := Z.of_nat (String.length line) in
  let lines_iterator := uint8 (lines_iterator st + 1) in
  let st := {| loaded_table := loaded_table st;
               sensors_iterator := sensors_iterator st;
               lines_iterator := lines_iterator;
               printed := printed st |} in
  if read <? MIN_CONF_LINE_LENGTH then
    NextLine (print (TooFewCharacters lines_iterator read) st)
  else if read >? MAX_CONF_LINE_LENGTH then
    NextLine (print (TooManyCharacters lines_iterator read) st)
  else
    let read := read - 1 in
    let line := poke (Z.to_nat read) NUL line in
    if strcmp_eq line BINDING_LIST_STOP then BreakLoop st
    else
      let separator_index :=
        match strchr line SEPARATION_CHAR with
        | Some k => Z.of_nat k
        | None => null_minus_line
        end in
      if separator_index >=? read - 1 then
        NextLine (print (NoDataAfterSeparator lines_iterator (c_str line)) st)
      else if separator_index <? 0 then
        NextLine (print (MissingSeparator lines_iterator (c_str line)) st)
      else if separator_index =? 0 then
        NextLine (print (NoDataBeforeSeparator lines_iterator (c_str line)) st)
      else
        let sep := Z.to_nat separator_index in
        let line := poke sep NUL line in
        if MAX_SENSOR_NAME_LENGTH <=? read - separator_index - 1 then
          UndefinedBehaviour
        else
          let number_string :=
            c_str (substring (S sep) (Z.to_nat (read - separator_index)) line) in
          if negb (strtol number_string =? 0) then
            if MAX_SENSOR_NAME_LENGTH <=? separator_index then UndefinedBehaviour
            else
              let sensor := new_sensor (uint32 (strtol number_string)) (c_str line) in
              let k := sensors_iterator st in
              if (0 <=? k) && (k <? Z.of_nat (List.length (loaded_table st))) then
                NextLine {| loaded_table :=
                              store_at (Z.to_nat k) sensor (loaded_table st);
                            sensors_iterator := uint8 (k + 1);
                            lines_iterator := lines_iterator;
                            printed := printed st |}
              else UndefinedBehaviour
          else
            let line := poke sep SEPARATION_CHAR line in
            NextLine (print (NotADecimalNumber lines_iterator (c_str line)
                                               number_string) st).

(** The second [while]: until [getline] fails or the stop phrase is met. *)
Fixpoint parse_lines (null_minus_line : Z) (st : load_state)
    (lines : list string) : option load_state :=
  match lines with
  | [] => Some st
  | line :: rest =>
      match parse_line null_minus_line st line with
      | NextLine st' => parse_lines null_minus_line st' rest
      | BreakLoop st' => Some st'
      | UndefinedBehaviour => None
      end
  end.

(** The first [while]: lines are dropped up to and including the start
    phrase; [line[read-1] = 0] removes the last character of each. *)
Fixpoint skip_to_start (lines : list string) : list string :=
  match lines with
  | [] => []
  | line :: rest =>
      if strcmp_eq (poke (Nat.pred (String.length line)) NUL line)
                   SENSOR_BINDING_LIST_START
      then rest
      else skip_to_start rest
  end.

Record load_result := {
  return_code : Z;
  table_after : list SHTW1_SENSOR;
  number_of_sensors : Z;
  output : list message
}.

(** [config_file] is [None] when [fopen] fails, else the lines [getline]
    returns one after the other. [sensors_iterator] has no initialiser:
    [indeterminate_iterator] is the value the [uint8_t] object happens to
    hold. The result is [None] on undefined behaviour. *)
Definition LoadConfiguration (config_file : option (list string))
    (indeterminate_iterator null_minus_line : Z)
    (table_of_sensors : list SHTW1_SENSOR) : option load_result :=
  match config_file with
  | None =>
      Some {| return_code := -1;
              table_after := table_of_sensors;
              number_of_sensors := 0;
              output := [MissingConfigurationFile] |}
  | Some lines =>
      let st := {| loaded_table := table_of_sensors;
                   sensors_iterator := uint8 indeterminate_iterator;
                   lines_iterator := 0;
                   printed := [ReadingConfiguration] |} in
      match parse_lines null_minus_line st (skip_to_start lines) with
      | Some st' =>
          Some {| return_code := 0;
                  table_after := loaded_table st';
                  number_of_sensors := sensors_iterator st';
                  output := printed st' |}
      | None => None
      end
  end.

(** ** Definitions used by the statements *)

(** The sensor a call of [UpdateSensorsMeasurements] addresses: the one of
    highest index among the first [n] whose handle is set. *)
Fixpoint polled_sensor (sensors_table : list SHTW1_SENSOR) (n : nat)
  : option (nat * SHTW1_SENSOR) :=
  match n with
  | O => None
  | S k =>
      match nth_error sensors_table k with
      | Some sensor =>
          if negb (usb_stick_handle sensor =? 0) then Some (k, sensor)
          else polled_sensor sensors_table k
      | None => polled_sensor sensors_table k
      end
  end.

(** The sensors of a table that are bound to an adapter. *)
Definition bound_handles (sensors_table : list SHTW1_SENSOR) : list IOWKIT_HANDLE :=
  filter (fun h => negb (h =? 0)) (map usb_stick_handle sensors_table).

Fixpoint bytes_eqb (a b : list Z) : bool :=
  match a, b with
  | [], [] => true
  | x :: a', y :: b' => (x =? y) && bytes_eqb a' b'
  | _, _ => false
  end.

Definition report_eqb (a b : IOWKIT_SPECIAL_REPORT) : bool :=
  (ReportID a =? ReportID b) && bytes_eqb (Bytes a) (Bytes b).

(** The handles to which the measure command was written, in order. *)
Fixpoint measured_handles (tr : list event) : list IOWKIT_HANDLE :=
  match tr with
  | [] => []
  | Written handle report :: rest =>
      if report_eqb report (write_request MEASURE_T_RH_CLKSTR)
      then handle :: measured_handles rest
      else measured_handles rest
  | _ :: rest => measured_handles rest
  end.

(** What a measurement transaction that got its six bytes leaves in the
    trace: command out, acknowledgement in, read request out, reply in. *)
Definition measurement_trace (handle : IOWKIT_HANDLE)
    (ack answer : IOWKIT_SPECIAL_REPORT) : list event :=
  [Written handle (write_request MEASURE_T_RH_CLKSTR); ReadBack handle ack;
   Written handle (read_request 0x06); ReadBack handle answer].

(** A measurement transaction on [handle] that gets its six bytes: from
    world [w] the command is acknowledged in full by [ack], and the read is
    answered by [answer], which leaves world [w2]. *)
Definition answered {platform : Platform} (handle : IOWKIT_HANDLE) (w : World)
    (ack answer : IOWKIT_SPECIAL_REPORT) (w2 : World) : Prop :=
  exists w1,
    transact handle (write_request MEASURE_T_RH_CLKSTR) w = (ack, w1)
    /\ byte_of ack 0 = 3
    /\ transact handle (read_request 0x06) w1 = (answer, w2)
    /\ Z.land (byte_of answer 0) 0x80 = 0.

(** A transport-level failure of the transaction: the device sets the top
    bit of the first byte either in its reply to the command or in its reply
    to the read request. [evs] is what the transaction leaves in the trace
    and [w'] the world after it. *)
Definition ack_failure {platform : Platform} (handle : IOWKIT_HANDLE) (w : World)
    (evs : list event) (w' : World) : Prop :=
  (exists ack,
      transact handle (write_request MEASURE_T_RH_CLKSTR) w = (ack, w')
      /\ Z.land (byte_of ack 0) 0x80 <> 0
      /\ evs = [Written handle (write_request MEASURE_T_RH_CLKSTR);
                ReadBack handle ack;
                Printed WriteNotAcknowledged; Printed MeasureCommandError])
  \/ (exists ack w1 answer,
      transact handle (write_request MEASURE_T_RH_CLKSTR) w = (ack, w1)
      /\ byte_of ack 0 = 3
      /\ transact handle (read_request 0x06) w1 = (answer, w')
      /\ Z.land (byte_of answer 0) 0x80 <> 0
      /\ evs = measurement_trace handle ack answer
               ++ [Printed ReadNotAcknowledged]).

(** The dew point as the specification words it: none when the humidity is
    not positive, else the coefficient pair chosen by the sign of the
    temperature, each literal rounded once to binary32, and the quotient
    formula in binary32; [ln] is applied to the ratio rh/100, the binary32
    quotient of the humidity by 100. *)
Definition dew_point_spec (ln : float -> float) (temp_c humidity_pct : float)
  : option float :=
  if F32.leb humidity_pct (F32.of_Z 0) then None
  else
    let '(T_coef, m) :=
      if F32.ltb (F32.of_Z 0) temp_c
      then (F32.of_decimal 24312 100, F32.of_decimal 1762 100)
      else (F32.of_decimal 27262 100, F32.of_decimal 2246 100) in
    let ln_rh := ln (F32.div humidity_pct (F32.of_Z 100)) in
    let frac := F32.div (F32.mul m temp_c) (F32.add T_coef temp_c) in
    Some (F32.div (F32.mul T_coef (F32.add ln_rh frac))
                  (F32.sub (F32.sub m ln_rh) frac)).

(** Equality test on floats as data. *)
Definition float_eqb (a b : spec_float) : bool :=
  match a, b with
  | S754_zero s, S754_zero s' => Bool.eqb s s'
  | S754_infinity s, S754_infinity s' => Bool.eqb s s'
  | S754_nan, S754_nan => true
  | S754_finite s m e, S754_finite s' m' e' =>
      Bool.eqb s s' && Pos.eqb m m' && Z.eqb e e'
  | _, _ => false
  end.

(** A property checked on [fuel] consecutive integers from [z] on. *)
Fixpoint all_from (fuel : nat) (z : Z) (p : Z -> bool) : bool :=
  match fuel with
  | O => true
  | S k => p z && all_from k (z + 1) p
  end.

Definition sixteen_bits : nat := Z.to_nat 65536.

Definition temperature_check (raw : Z) : bool :=
  let T := ConvertTemperature raw in
  is_finite T && Qeq_bool (float_value T) (175 * inject_Z raw / 65536 - 45).

(** The last test sets the quotient [RH / 100.0] of the code, formed in
    binary64, against the binary32 quotient rh/100 of the specification. *)
Definition humidity_check (raw : Z) : bool :=
  let RH := ConvertHumidity raw in
  is_finite RH
  && Qeq_bool (float_value RH) (100 * inject_Z raw / 65536)
  && Bool.eqb (F64.ltb (F64.of_Z 0) (F64.of_float RH))
              (negb (F32.leb RH (F32.of_Z 0)))
  && float_eqb (percent_ratio RH) (F32.div RH (F32.of_Z 100)).

(** *** A test bench

    A world for concrete runs: every handle has a queue of reports it will
    send back, one per read; a handle with an empty queue does not
    acknowledge (top bit of the first byte set). *)
Definition Bench := IOWKIT_HANDLE -> list IOWKIT_SPECIAL_REPORT.

Definition not_acknowledged : IOWKIT_SPECIAL_REPORT :=
  {| ReportID := 0x02; Bytes := [0x80; 0; 0; 0; 0; 0; 0] |}.

Definition bench_write (handle : IOWKIT_HANDLE) (report : IOWKIT_SPECIAL_REPORT)
    (w : Bench) : Bench := w.

Definition bench_read (handle : IOWKIT_HANDLE) (w : Bench)
  : IOWKIT_SPECIAL_REPORT * Bench :=
  match w handle with
  | [] => (not_acknowledged, w)
  | report :: rest => (report, fun h => if h =? handle then rest else w h)
  end.

(** [logf] on the bench: the binary32 nearest to ln(1/2) at 1/2. *)
Definition bench_logf (x : float) : float :=
  if float_eqb x (S754_finite false 8388608 (-24))
  then S754_finite true 11629080 (-24)
  else S754_nan.

Definition bench : Platform :=
  {| World := Bench;
     IowKitWrite := bench_write;
     IowKitRead := bench_read;
     logf := bench_logf |}.

(** The three-byte write was acknowledged. *)
Definition acknowledged : IOWKIT_SPECIAL_REPORT :=
  {| ReportID := 0x02; Bytes := [3; 0; 0; 0; 0; 0; 0] |}.

(** A six-byte reply: temperature word, its checksum, humidity word, its
    checksum. *)
Definition reply (t_hi t_lo t_crc h_hi h_lo h_crc : Z) : IOWKIT_SPECIAL_REPORT :=
  {| ReportID := 0x03; Bytes := [6; t_hi; t_lo; t_crc; h_hi; h_lo; h_crc] |}.

(** 0x6666 is 25.0 degrees to within 0.001, 0x8000 is 50 %. *)
Definition good_reply : IOWKIT_SPECIAL_REPORT :=
  reply 0x66 0x66 (CRC.compute [0x66; 0x66]) 0x80 0x00 (CRC.compute [0x80; 0x00]).

Definition bad_temperature_reply : IOWKIT_SPECIAL_REPORT :=
  reply 0x66 0x66 0x00 0x80 0x00 (CRC.compute [0x80; 0x00]).

Definition bad_humidity_reply : IOWKIT_SPECIAL_REPORT :=
  reply 0x66 0x66 (CRC.compute [0x66; 0x66]) 0x80 0x00 0x00.

Definition zero_humidity_reply : IOWKIT_SPECIAL_REPORT :=
  reply 0x66 0x66 (CRC.compute [0x66; 0x66]) 0x00 0x00 (CRC.compute [0x00; 0x00]).

Definition bench_state (w : Bench) : @state bench :=
  @Build_state bench w [].

Definition sensor_on (handle : IOWKIT_HANDLE) (sensor_name : string) (serial : Z)
  : SHTW1_SENSOR :=
  {| stick_serial_number := serial;
     usb_stick_handle := handle;
     temperature := F32.of_Z 1000;
     humidity := F32.of_Z 1000;
     dew_point := F32.of_Z 1000;
     name := sensor_name;
     info := "OK: USB Stick and Physical Sensor found!" |}.

Definition stale : outputs :=
  {| out_temperature := F32.of_Z 1; out_humidity := F32.of_Z 2;
     out_dew_point := F32.of_Z 3 |}.

(** A bench where one handle has a queue of replies and the others are
    silent, and the world after [n] reads on a handle. *)
Definition bench_with (handle : IOWKIT_HANDLE)
    (queue : list IOWKIT_SPECIAL_REPORT) : Bench :=
  fun h => if h =? handle then queue else [].

Definition after_reads (n : nat) (handle : IOWKIT_HANDLE) (w : Bench) : Bench :=
  Nat.iter n (fun w => snd (bench_read handle w)) w.

(** Two bound sensors. On [healthy_bench] both answer a measurement; on
    [one_dead_bench] the sensor of handle 1 would answer five measurements
    and the sensor of handle 2 never acknowledges. *)
Definition two_sensors : list SHTW1_SENSOR :=
  [sensor_on 1 "inner" 6181; sensor_on 2 "outer" 6873].

Definition healthy_bench : Bench :=
  fun h => if (h =? 1) || (h =? 2) then [acknowledged; good_reply] else [].

Definition one_dead_bench : Bench :=
  bench_with 1 (flat_map (fun _ => [acknowledged; good_reply]) (seq 0 5)).



(** Lines of the configuration file as [getline] returns them. *)
Definition text_line (text : string) : string :=
  text ++ String NEWLINE EmptyString.

Definition conf_line (sensor_name serial : string) : string :=
  text_line (sensor_name ++ String SEPARATION_CHAR serial).

Definition sample_configuration : list string :=
  [text_line "# sticks"; text_line "sensors:";
   conf_line "outer" "6873"; conf_line "inner" "12abc"; conf_line "left" "0";
   text_line "end."].

Definition empty_table (n : nat) : list SHTW1_SENSOR :=
  repeat (new_sensor 0 EmptyString) n.

(** ** Start-up: identification of the sensors and binding to the sticks *)

(** What the start-up functions print, one constructor per [printf]. *)
Inductive notice :=
| ChecksumErrorOnId
| ReadIdTransmissionError
| MaximumOfDevices
| ConnectedDevices (number_of_devices : Z)
| DeviceHeader (number_of_devices : Z)
| StickSerialNumber (serial : Z)
| FoundSensor
| BoundStickWithSensor
| NoSensorOnDevice
| UnknownSensorFound (sensor_id : Z)
| DeviceFooter
| SensorNotFound (sensor_name : string) (serial : Z).

(** The report of [EnableI2c]: [ReportID = 0x01], [Bytes[0] = 0x01],
    [Bytes[1] = 0x80]; and of [DisableI2c]: [Bytes[0] = 0x00]. *)
Definition enable_request : IOWKIT_SPECIAL_REPORT :=
  {| ReportID := 0x01; Bytes := [0x01; 0x80; 0; 0; 0; 0; 0] |}.

Definition disable_request : IOWKIT_SPECIAL_REPORT :=
  {| ReportID := 0x01; Bytes := [0x00; 0; 0; 0; 0; 0; 0] |}.

(** [strncpy(destination, source, n)] as the characters it leaves in the
    destination that come from [source]: there is no terminator among them
    when [source] has [n] characters or more. *)
Definition strncpy (source : string) (n : nat) : string := substring 0 n source.

Definition MAX_SENSOR_INFO_LENGTH : nat := 40.

(** *** strtol in base 16 *)
Definition hex_digit_of (c : ascii) : option Z :=
  let n := Z.of_nat (nat_of_ascii c) in
  if (48 <=? n) && (n <=? 57) then Some (n - 48)
  else if (65 <=? n) && (n <=? 70) then Some (n - 55)
  else if (97 <=? n) && (n <=? 102) then Some (n - 87)
  else None.

Fixpoint hex_value (s : string) (acc : Z) : Z :=
  match s with
  | String c rest =>
      match hex_digit_of c with
      | Some d => hex_value rest (16 * acc + d)
      | None => acc
      end
  | EmptyString => acc
  end.

(** An optional [0x] or [0X] is skipped when a hexadecimal digit follows. *)
Definition skip_hex_prefix (s : string) : string :=
  match s with
  | String "0"%char (String x (String d rest)) =>
      if (Ascii.eqb x "x"%char || Ascii.eqb x "X"%char)%bool
      then match hex_digit_of d with
           | Some _ => String d rest
           | None => s
           end
      else s
  | _ => s
  end.

Definition strtol_hex (nptr : string) : Z :=
  let s := skip_spaces nptr in
  let '(negative, s) :=
    match s with
    | String "-"%char rest => (true, rest)
    | String "+"%char rest => (false, rest)
    | _ => (false, s)
    end in
  let v := hex_value (skip_hex_prefix s) 0 in
  if negative then Z.max LONG_MIN (- v) else Z.min LONG_MAX v.

(** *** GetUsbStickSerialNumber

    [IowKitGetSerialNumber] of the io-warrior library fills a buffer of
    16-bit code units with the serial number of a stick; the buffer has 9
    units and starts out cleared. *)
Class SerialNumbers := {
  IowKitGetSerialNumber : IOWKIT_HANDLE -> list Z
}.

(** [serial_number_string[j] = serial_number_unicode[j]]: a code unit
    stored into a [char]. *)
Definition char_of_unit (u : Z) : ascii := ascii_of_nat (Z.to_nat (uint8 u)).

Fixpoint string_of_units (units : list Z) : string :=
  match units with
  | [] => EmptyString
  | u :: rest => String (char_of_unit u) (string_of_units rest)
  end.

Definition GetUsbStickSerialNumber {serials : SerialNumbers}
    (handle : IOWKIT_HANDLE) : Z :=
  let serial_number_unicode :=
    firstn 9 (IowKitGetSerialNumber handle ++ repeat 0 9) in
  let serial_number_string := string_of_units serial_number_unicode in
  uint32 (strtol_hex serial_number_string).

(** *** CheckSensorsPresence *)

(** [while(number_of_sensors) { number_of_sensors--; ... }] with the
    [uint8_t] counter of missing sensors. *)
Fixpoint CheckSensorsPresence_loop (sensors_table : list SHTW1_SENSOR)
    (number_of_sensors : nat) (missing_sensors_number : Z) : Z * list notice :=
  match number_of_sensors with
  | O => (missing_sensors_number, [])
  | S n =>
      match nth_error sensors_table n with
      | Some sensor =>
          if usb_stick_handle sensor =? 0 then
            let (missing, notices) :=
              CheckSensorsPresence_loop sensors_table n
                (uint8 (missing_sensors_number + 1)) in
            (missing, SensorNotFound (name sensor) (stick_serial_number sensor)
                      :: notices)
          else CheckSensorsPresence_loop sensors_table n missing_sensors_number
      | None => CheckSensorsPresence_loop sensors_table n missing_sensors_number
      end
  end.

(** [if (missing_sensors_number) return -missing_sensors_number; return 0;] *)
Definition CheckSensorsPresence (sensors_table : list SHTW1_SENSOR)
  : Z * list notice :=
  let (missing, notices) :=
    CheckSensorsPresence_loop sensors_table (List.length sensors_table) 0 in
  (if negb (missing =? 0) then - missing else 0, notices).

(** *** The inner loop of InitializeSticksAndSensors

    [for(sensors_iterator = 0; sensors_iterator < number_of_sensors; ...)]:
    the first sensor whose serial number is that of the stick is treated
    according to [sensor_id], and the loop is left by [break]. *)
Definition with_handle_and_info (sensor : SHTW1_SENSOR)
    (handle : IOWKIT_HANDLE) (text : string) : SHTW1_SENSOR :=
  {| stick_serial_number := stick_serial_number sensor;
     usb_stick_handle := handle;
     temperature := temperature sensor;
     humidity := humidity sensor;
     dew_point := dew_point sensor;
     name := name sensor;
     info := strncpy text MAX_SENSOR_INFO_LENGTH |}.

Fixpoint bind_stick (serial : Z) (handle : IOWKIT_HANDLE) (sensor_id : Z)
    (sensors_table : list SHTW1_SENSOR) : list SHTW1_SENSOR * list notice :=
  match sensors_table with
  | [] => ([], [])
  | sensor :: rest =>
      if stick_serial_number sensor =? serial then
        if sensor_id =? 7 then
          (with_handle_and_info sensor handle
             "OK: USB Stick and Physical Sensor found!" :: rest,
           [FoundSensor; BoundStickWithSensor])
        else if sensor_id =? -1 then
          (with_handle_and_info sensor (usb_stick_handle sensor)
             "ERROR: Physical Sensor not found!" :: rest,
           [NoSensorOnDevice])
        else
          (with_handle_and_info sensor (usb_stick_handle sensor)
             "ERROR: Unknown Physical Sensor found!" :: rest,
           [UnknownSensorFound sensor_id])
      else
        let (rest', notices) := bind_stick serial handle sensor_id rest in
        (sensor :: rest', notices)
  end.

Section StartUp.

Context {platform : Platform} {serials : SerialNumbers}.

Notation "x <- m ;; k" := (bind m (fun x => k))
  (at level 61, m at next level, right associativity).
Notation "m ;;; k" := (bind m (fun _ => k))
  (at level 61, right associativity).

Definition EnableI2c (handle : IOWKIT_HANDLE) : M unit :=
  kit_write handle enable_request.

Definition DisableI2c (handle : IOWKIT_HANDLE) : M unit :=
  kit_write handle disable_request.

(** [if (WriteI2C(handle, SOFT_RESET) == 3) return 0; else return -1;] *)
Definition SendSoftReset (handle : IOWKIT_HANDLE) : M Z :=
  acked <- WriteI2C handle SOFT_RESET ;;
  if acked =? 3 then ret 0 else ret (-1).

(** [sensor_id] is an [int8_t] that starts at -1; the result comes with
    what the call prints. *)
Definition GetSensorId (handle : IOWKIT_HANDLE) : M (Z * list notice) :=
  acked <- WriteI2C handle READ_ID ;;
  if acked =? 3 then
    return_report <- ReadI2c handle 0x03 ;;
    if Z.land (byte_of return_report 0) 0x80 =? 0 then
      if negb (CRC.VerifyChecksum (word_span return_report 1)
                                  (byte_of return_report 3) =? 0)
      then ret (-1, [ChecksumErrorOnId])
      else ret (int8 (Z.land (word_of return_report 1) 0x3F), [])
    else ret (-1, [])
  else ret (-1, [ReadIdTransmissionError]).

(** [while (number_of_devices) { number_of_devices--; ... }]: the sticks
    are visited from the last handle of the table to the first. *)
Fixpoint InitializeSticksAndSensors_loop (handles_table : list IOWKIT_HANDLE)
    (number_of_devices : nat) (sensors_table : list SHTW1_SENSOR)
  : M (list SHTW1_SENSOR * list notice) :=
  match number_of_devices with
  | O => ret (sensors_table, [])
  | S n =>
      match nth_error handles_table n with
      | Some handle =>
          EnableI2c handle ;;;
          SendSoftReset handle ;;;
          id <- GetSensorId handle ;;
          let (bound, notices) :=
            bind_stick (GetUsbStickSerialNumber handle) handle (fst id)
                       sensors_table in
          r <- InitializeSticksAndSensors_loop handles_table n bound ;;
          ret (fst r,
               [DeviceHeader (Z.of_nat n);
                StickSerialNumber (GetUsbStickSerialNumber handle)]
               ++ snd id ++ notices ++ [DeviceFooter] ++ snd r)
      | None => InitializeSticksAndSensors_loop handles_table n sensors_table
      end
  end.

(** The function is declared [int] and has no [return]: it yields the
    table and what it prints. *)
Definition InitializeSticksAndSensors (handles_table : list IOWKIT_HANDLE)
    (sensors_table : list SHTW1_SENSOR) : M (list SHTW1_SENSOR * list notice) :=
  r <- InitializeSticksAndSensors_loop handles_table
         (List.length handles_table) sensors_table ;;
  ret (fst r,
       [MaximumOfDevices; ConnectedDevices (Z.of_nat (List.length handles_table))]
       ++ snd r).

End StartUp.

(** ** Further definitions used by the statements *)

(** The inverse of one shift of the checksum register. *)
Definition unshift_step (crc : Z) : Z :=
  if Z.odd crc then Z.lor (Z.shiftr (Z.lxor crc 0x31) 1) 0x80
  else Z.shiftr crc 1.

(** Every report of a trace was exchanged on [handle]. *)
Definition on_handle (handle : IOWKIT_HANDLE) (e : event) : Prop :=
  match e with
  | Written h _ => h = handle
  | ReadBack h _ => h = handle
  | Printed _ => True
  end.

(** The reports written in a trace. *)
Fixpoint written_reports (tr : list event) : list IOWKIT_SPECIAL_REPORT :=
  match tr with
  | [] => []
  | Written _ report :: rest => report :: written_reports rest
  | _ :: rest => written_reports rest
  end.




(** The eight upper-case hexadecimal digits of a 32-bit number, as the code
    units of a serial number, followed by the terminator. *)
Definition hex_char (d : Z) : Z := if d <? 10 then 48 + d else 55 + d.

Fixpoint hex_units (digits : nat) (n : Z) (acc : list Z) : list Z :=
  match digits with
  | O => acc
  | S k => hex_units k (n / 16) (hex_char (n mod 16) :: acc)
  end.

Definition serial_units (n : Z) : list Z := hex_units 8 n [0].


Fixpoint all_chars (p : ascii -> bool) (s : string) : bool :=
  match s with
  | EmptyString => true
  | String c rest => p c && all_chars p rest
  end.

(** The sensors of a table that have no handle, last index first. *)
Definition unbound (sensors_table : list SHTW1_SENSOR) : list SHTW1_SENSOR :=
  filter (fun s => usb_stick_handle s =? 0) (rev sensors_table).

(** Serial numbers on the bench: the sticks of handles 1 and 2 carry 6181
    and 6873, any other handle an empty string. *)
Definition bench_serials : SerialNumbers :=
  {| IowKitGetSerialNumber := fun handle =>
       if handle =? 1 then serial_units 6181
       else if handle =? 2 then serial_units 6873
       else [] |}.

(** The test of the first loop of [LoadConfiguration] on a line: without
    its last character it is the start phrase. *)
Definition starts_section (line : string) : bool :=
  strcmp_eq (poke (Nat.pred (String.length line)) NUL line)
            SENSOR_BINDING_LIST_START.

(** The messages for lines that are too short or too long, numbered from
    [lines_iterator + 1] on. *)
Fixpoint length_errors (lines_iterator : Z) (lines : list string) : list message :=
  match lines with
  | [] => []
  | line :: rest =>
      let n := uint8 (lines_iterator + 1) in
      let read := Z.of_nat (String.length line) in
      (if read <? MIN_CONF_LINE_LENGTH then TooFewCharacters n read
       else TooManyCharacters n read) :: length_errors n rest
  end.





(** A character other than the terminator. *)
Definition not_nul (c : ascii) : bool := negb (Ascii.eqb c NUL).

(** An identification exchange on [handle] that gets its three bytes: the
    READ_ID command is acknowledged in full by [ack] and the read of three
    bytes is answered by [answer]. *)
Definition identified {platform : Platform} (handle : IOWKIT_HANDLE) (w : World)
    (ack answer : IOWKIT_SPECIAL_REPORT) (w2 : World) : Prop :=
  exists w1,
    transact handle (write_request READ_ID) w = (ack, w1)
    /\ byte_of ack 0 = 3
    /\ transact handle (read_request 0x03) w1 = (answer, w2)
    /\ Z.land (byte_of answer 0) 0x80 = 0.

(** What start-up may do to an entry of the table: the configured serial
    number, the name and the measurements stay, and the handle either stays
    or becomes the handle of a stick of the table that carries the serial
    number of the entry. *)
Definition bound_by {serials : SerialNumbers} (handles_table : list IOWKIT_HANDLE)
    (before after : SHTW1_SENSOR) : Prop :=
  stick_serial_number after = stick_serial_number before
  /\ name after = name before
  /\ temperature after = temperature before
  /\ humidity after = humidity before
  /\ dew_point after = dew_point before
  /\ (usb_stick_handle after = usb_stick_handle before
      \/ (In (usb_stick_handle after) handles_table
          /\ GetUsbStickSerialNumber (usb_stick_handle after)
             = stick_serial_number before)).

(** The line [CheckSensorsPresence] prints for a sensor. *)
Definition not_found_notice (sensor : SHTW1_SENSOR) : notice :=
  SensorNotFound (name sensor) (stick_serial_number sensor).

(** The handles on which the bus was switched on, in order. *)
Fixpoint enabled_handles (tr : list event) : list IOWKIT_HANDLE :=
  match tr with
  | [] => []
  | Written handle report :: rest =>
      if report_eqb report enable_request
      then handle :: enabled_handles rest
      else enabled_handles rest
  | _ :: rest => enabled_handles rest
  end.

(** ** Properties *)

Example crc_datasheet_vector : CRC.compute [0xBE; 0xEF] = 0x92.
Proof. reflexivity. Qed.

Example ConvertTemperature_0 : ConvertTemperature 0 = S754_finite true 11796480 (-18).
Proof. vm_compute. reflexivity. Qed.

(** *** Checked ranges *)

Lemma all_from_true (fuel : nat) (p : Z -> bool) :
  forall z, all_from fuel z p = true ->
  forall x, z <= x < z + Z.of_nat fuel -> p x = true.
Proof.
  induction fuel as [|k IH]; intros z H x Hx.
  - simpl in Hx. lia.
  - simpl in H. apply andb_true_iff in H. destruct H as [Hz Hrest].
    destruct (Z.eq_dec x z) as [->|Hne]; [exact Hz|].
    apply (IH (z + 1) Hrest). lia.
Qed.

Lemma uint8_range (z : Z) : 0 <= uint8 z < 256.
Proof.
  unfold uint8. change 0xFF with (Z.ones 8).
  rewrite Z.land_ones by lia. apply Z.mod_pos_bound. reflexivity.
Qed.

Lemma uint8_small (z : Z) : 0 <= z < 256 -> uint8 z = z.
Proof.
  intros H. unfold uint8. change 0xFF with (Z.ones 8).
  rewrite Z.land_ones by lia. apply Z.mod_small. exact H.
Qed.

Lemma uint16_range (z : Z) : 0 <= uint16 z < 65536.
Proof.
  unfold uint16. change 0xFFFF with (Z.ones 16).
  rewrite Z.land_ones by lia. apply Z.mod_pos_bound. reflexivity.
Qed.

Lemma uint16_small (z : Z) : 0 <= z < 65536 -> uint16 z = z.
Proof.
  intros H. unfold uint16. change 0xFFFF with (Z.ones 16).
  rewrite Z.land_ones by lia. apply Z.mod_small. exact H.
Qed.

(** *** VerifyChecksum *)

Module CRCFacts.
Import CRC.

Lemma shift_step_ref (x : Z) :
  0 <= x < 256 -> shift_step x = ref_shift x /\ 0 <= ref_shift x < 256.
Proof.
  intros Hx.
  assert (H : all_from 256 0
                (fun x => (shift_step x =? ref_shift x)
                          && (0 <=? ref_shift x) && (ref_shift x <? 256)) = true)
    by (vm_compute; reflexivity).
  pose proof (all_from_true _ _ _ H x) as Hc. cbv beta in Hc.
  assert (Hr : 0 <= x < 0 + Z.of_nat 256) by (simpl; lia).
  specialize (Hc Hr).
  apply andb_true_iff in Hc. destruct Hc as [Hc H3].
  apply andb_true_iff in Hc. destruct Hc as [H1 H2].
  apply Z.eqb_eq in H1. apply Z.leb_le in H2. apply Z.ltb_lt in H3.
  lia.
Qed.

Lemma bit_loop_ref (n : nat) :
  forall x, 0 <= x < 256 ->
  bit_loop n x = Nat.iter n ref_shift x /\ 0 <= bit_loop n x < 256.
Proof.
  induction n as [|k IH]; intros x Hx.
  - simpl. lia.
  - rewrite Nat.iter_succ_r. simpl bit_loop.
    destruct (shift_step_ref x Hx) as [He Hr].
    rewrite He. apply IH. exact Hr.
Qed.

Lemma byte_loop_range (data : list Z) :
  forall crc, 0 <= crc < 256 -> 0 <= byte_loop data crc < 256.
Proof.
  induction data as [|b rest IH]; intros crc Hc; cbn [byte_loop].
  - exact Hc.
  - apply IH. apply bit_loop_ref. apply uint8_range.
Qed.

Lemma lxor_bytes (a b : Z) : 0 <= a < 256 -> 0 <= b < 256 -> 0 <= Z.lxor a b < 256.
Proof.
  intros Ha Hb.
  assert (Hn : 0 <= Z.lxor a b) by (apply Z.lxor_nonneg; lia).
  split; [exact Hn|].
  destruct (Z.eq_dec (Z.lxor a b) 0) as [->|Hz]; [lia|].
  change 256 with (2 ^ 8). apply Z.log2_lt_pow2; [lia|].
  pose proof (Z.log2_lxor a b ltac:(lia) ltac:(lia)) as Hl.
  assert (La : Z.log2 a < 8).
  { destruct (Z.eq_dec a 0) as [->|]; [simpl; lia|].
    apply Z.log2_lt_pow2; lia. }
  assert (Lb : Z.log2 b < 8).
  { destruct (Z.eq_dec b 0) as [->|]; [simpl; lia|].
    apply Z.log2_lt_pow2; lia. }
  lia.
Qed.

Lemma byte_loop_ref (data : list Z) :
  Forall is_byte data ->
  forall crc, 0 <= crc < 256 -> byte_loop data crc = fold_left ref_byte data crc.
Proof.
  induction 1 as [|b rest Hb _ IH]; intros crc Hc; cbn [byte_loop fold_left].
  - reflexivity.
  - pose proof (lxor_bytes crc b Hc Hb) as Hx.
    rewrite (uint8_small _ Hx).
    destruct (bit_loop_ref 8 _ Hx) as [He Hr].
    rewrite IH by exact Hr. rewrite He. reflexivity.
Qed.

Lemma compute_range (data : list Z) : 0 <= compute data < 256.
Proof. apply byte_loop_range. lia. Qed.

Lemma VerifyChecksum_0 (data : list Z) (c : Z) :
  VerifyChecksum data c = 0 <-> uint8 c = compute data.
Proof.
  unfold VerifyChecksum. cbv zeta.
  destruct (Z.eqb_spec (compute data) (uint8 c)) as [E|E]; simpl; split; intros H;
    try congruence; try discriminate.
Qed.

Lemma VerifyChecksum_byte (data : list Z) (c : Z) :
  is_byte c -> VerifyChecksum data c = 0 <-> c = compute data.
Proof.
  intros Hc. rewrite VerifyChecksum_0, (uint8_small c Hc). reflexivity.
Qed.

Lemma VerifyChecksum_values (data : list Z) (c : Z) :
  VerifyChecksum data c = 0 \/ VerifyChecksum data c = -2.
Proof.
  unfold VerifyChecksum. cbv zeta.
  destruct (compute data =? uint8 c); simpl; auto.
Qed.

End CRCFacts.

(** C6. The loop of [VerifyChecksum] computes the CRC-8 of the
    specification (polynomial 0x131, initial value 0xFF, most significant
    bit first, XOR on overflow, 8 shifts per byte) on every span of bytes;
    the checksum it computes is itself a byte; a span verifies against its
    own checksum, and fails with -2 against every other byte. The claimed
    checksum is a [uint8_t] parameter: an argument outside 0..255 is
    converted at the call, and it is the converted value that is compared. *)
Theorem VerifyChecksum_reference (data : list Z) :
  Forall CRC.is_byte data ->
  CRC.compute data = CRC.reference data
  /\ CRC.is_byte (CRC.compute data)
  /\ CRC.VerifyChecksum data (CRC.compute data) = 0
  /\ (forall claimed, CRC.is_byte claimed -> claimed <> CRC.compute data ->
        CRC.VerifyChecksum data claimed = -2)
  /\ (forall claimed,
        CRC.VerifyChecksum data claimed = CRC.VerifyChecksum data (uint8 claimed)
        /\ (uint8 claimed <> CRC.compute data ->
            CRC.VerifyChecksum data claimed = -2)).
Proof.
  intros Hd.
  assert (Hfail : forall claimed, uint8 claimed <> CRC.compute data ->
                                  CRC.VerifyChecksum data claimed = -2).
  { intros claimed Hne.
    destruct (CRCFacts.VerifyChecksum_values data claimed) as [H0|H2];
      [|exact H2].
    apply CRCFacts.VerifyChecksum_0 in H0. contradiction. }
  split; [|split; [|split; [|split]]].
  - unfold CRC.compute, CRC.reference.
    apply CRCFacts.byte_loop_ref; [exact Hd|lia].
  - apply CRCFacts.compute_range.
  - apply CRCFacts.VerifyChecksum_byte; [apply CRCFacts.compute_range|reflexivity].
  - intros claimed Hb Hne. apply Hfail. rewrite (uint8_small claimed Hb). exact Hne.
  - intros claimed. split; [|apply Hfail].
    unfold CRC.VerifyChecksum. cbv zeta.
    rewrite (uint8_small (uint8 claimed)) by apply uint8_range. reflexivity.
Qed.

Lemma VerifyChecksum_reference_witness :
  Forall CRC.is_byte [0xBE; 0xEF]
  /\ CRC.compute [0xBE; 0xEF] = CRC.reference [0xBE; 0xEF]
  /\ CRC.VerifyChecksum [0xBE; 0xEF] 0x92 = 0
  /\ CRC.VerifyChecksum [0xBE; 0xEF] 0x93 = -2
  /\ CRC.VerifyChecksum [0xBE; 0xEF] 0x192 = 0.
Proof.
  assert (Hb : Forall CRC.is_byte [0xBE; 0xEF])
    by (repeat constructor; unfold CRC.is_byte; lia).
  destruct (VerifyChecksum_reference [0xBE; 0xEF] Hb) as [H1 [_ [H3 [H4 H5]]]].
  split; [exact Hb|]. split; [exact H1|]. split; [exact H3|]. split.
  - apply H4; [unfold CRC.is_byte; lia|vm_compute; discriminate].
  - rewrite (proj1 (H5 0x192)). exact H3.
Defined.

(** *** Unit conversion *)

Lemma temperature_checked : all_from sixteen_bits 0 temperature_check = true.
Proof. vm_cast_no_check (eq_refl true). Qed.

Lemma humidity_checked : all_from sixteen_bits 0 humidity_check = true.
Proof. vm_cast_no_check (eq_refl true). Qed.

Lemma sixteen_bits_Z : Z.of_nat sixteen_bits = 65536.
Proof. reflexivity. Qed.

Lemma float_eqb_eq (a b : spec_float) : float_eqb a b = true -> a = b.
Proof.
  destruct a as [s|s| |s m e], b as [s'|s'| |s' m' e']; cbn [float_eqb];
    intros H; try discriminate; try reflexivity.
  - apply Bool.eqb_prop in H. congruence.
  - apply Bool.eqb_prop in H. congruence.
  - apply andb_true_iff in H. destruct H as [H He].
    apply andb_true_iff in H. destruct H as [Hs Hm].
    apply Bool.eqb_prop in Hs. apply Pos.eqb_eq in Hm. apply Z.eqb_eq in He.
    congruence.
Qed.

Lemma ConvertTemperature_exact (raw : Z) :
  0 <= raw < 65536 ->
  is_finite (ConvertTemperature raw) = true
  /\ (float_value (ConvertTemperature raw) == 175 * inject_Z raw / 65536 - 45)%Q.
Proof.
  intros H.
  assert (Hc : temperature_check raw = true).
  { apply (all_from_true _ _ _ temperature_checked).
    rewrite sixteen_bits_Z. lia. }
  unfold temperature_check in Hc. apply andb_true_iff in Hc.
  destruct Hc as [Hf Hq]. split; [exact Hf|]. apply Qeq_bool_iff. exact Hq.
Qed.

Lemma ConvertHumidity_facts (raw : Z) :
  0 <= raw < 65536 ->
  let RH := ConvertHumidity raw in
  is_finite RH = true
  /\ (float_value RH == 100 * inject_Z raw / 65536)%Q
  /\ F64.ltb (F64.of_Z 0) (F64.of_float RH) = negb (F32.leb RH (F32.of_Z 0)).
Proof.
  intros H RH.
  assert (Hc : humidity_check raw = true).
  { apply (all_from_true _ _ _ humidity_checked).
    rewrite sixteen_bits_Z. lia. }
  unfold humidity_check in Hc. fold RH in Hc.
  apply andb_true_iff in Hc. destruct Hc as [Hc _].
  apply andb_true_iff in Hc. destruct Hc as [Hc H3].
  apply andb_true_iff in Hc. destruct Hc as [H1 H2].
  split; [exact H1|]. split; [apply Qeq_bool_iff; exact H2|].
  apply Bool.eqb_prop; exact H3.
Qed.

Lemma uint16_wrap (raw : Z) : uint16 (raw + 65536) = uint16 raw.
Proof.
  unfold uint16. change 0xFFFF with (Z.ones 16).
  rewrite !Z.land_ones by lia. change (2 ^ 16) with 65536.
  replace (raw + 65536) with (raw + 1 * 65536) by lia.
  apply Z.mod_add. lia.
Qed.

(** C8, as the code has it. For every raw 16-bit value the conversions are
    exact: the temperature is 175 * raw / 65536 - 45 and the humidity is
    100 * raw / 65536, both finite; at 0 they are -45 and 0. The argument
    is a [uint16_t], so 65536 is not one of its values: an argument of
    [raw + 65536] is converted to [raw], and 65536 gives -45 and 0 again. *)
Theorem conversions_exact (raw : Z) :
  0 <= raw < 65536 ->
  (is_finite (ConvertTemperature raw) = true
   /\ float_value (ConvertTemperature raw) == 175 * inject_Z raw / 65536 - 45
   /\ is_finite (ConvertHumidity raw) = true
   /\ float_value (ConvertHumidity raw) == 100 * inject_Z raw / 65536
   /\ float_value (ConvertTemperature 0) == - (45)
   /\ float_value (ConvertHumidity 0) == 0
   /\ ConvertTemperature (raw + 65536) = ConvertTemperature raw
   /\ ConvertHumidity (raw + 65536) = ConvertHumidity raw
   /\ float_value (ConvertTemperature 65536) == - (45)
   /\ float_value (ConvertHumidity 65536) == 0)%Q.
Proof.
  intros H.
  destruct (ConvertTemperature_exact raw H) as [T1 T2].
  destruct (ConvertHumidity_facts raw H) as [H1 [H2 _]].
  split; [exact T1|]. split; [exact T2|].
  split; [exact H1|]. split; [exact H2|].
  split; [vm_compute; reflexivity|]. split; [vm_compute; reflexivity|].
  split; [unfold ConvertTemperature; rewrite uint16_wrap; reflexivity|].
  split; [unfold ConvertHumidity; rewrite uint16_wrap; reflexivity|].
  split; vm_compute; reflexivity.
Qed.

Lemma conversions_exact_witness :
  (float_value (ConvertTemperature 0x6666) == 175 * inject_Z 0x6666 / 65536 - 45
   /\ float_value (ConvertHumidity 0x8000) == 50)%Q.
Proof.
  split.
  - assert (H : 0 <= 0x6666 < 65536) by lia.
    exact (proj1 (proj2 (conversions_exact 0x6666 H))).
  - assert (H : 0 <= 0x8000 < 65536) by lia.
    pose proof (proj1 (proj2 (proj2 (proj2 (conversions_exact 0x8000 H))))) as E.
    rewrite E. vm_compute. reflexivity.
Defined.

(** C8 as stated fails at 65536: the code yields neither 175 nor 100
    there (and 175 * 65536 / 65536 - 45 is 130). *)
Lemma conversions_at_65536 :
  ~ (float_value (ConvertTemperature 65536) == 175)%Q
  /\ ~ (float_value (ConvertHumidity 65536) == 100)%Q
  /\ ~ (175 * inject_Z 65536 / 65536 - 45 == 175)%Q.
Proof.
  repeat split; vm_compute; discriminate.
Qed.


(** *** The measurement transaction *)

Section DeviceFacts.

Context {platform : Platform}.

Local Notation "w @ tr" := {| world := w; trace := tr |} (at level 50).

Lemma WriteI2C_acknowledged handle command w tr ack w1 :
  transact handle (write_request command) w = (ack, w1) ->
  byte_of ack 0 = 3 ->
  WriteI2C handle command (w @ tr)
  = (3, w1 @ (tr ++ [Written handle (write_request command);
                     ReadBack handle ack])).
Proof.
  intros Ht Hb. unfold transact in Ht.
  unfold WriteI2C, bind, kit_write, kit_read, ret. cbn [world trace].
  rewrite Ht. rewrite Hb. cbn.
  rewrite <- app_assoc. reflexivity.
Qed.

Lemma WriteI2C_refused handle command w tr ack w1 :
  transact handle (write_request command) w = (ack, w1) ->
  Z.land (byte_of ack 0) 0x80 <> 0 ->
  WriteI2C handle command (w @ tr)
  = (-1, w1 @ (tr ++ [Written handle (write_request command);
                      ReadBack handle ack; Printed WriteNotAcknowledged])).
Proof.
  intros Ht Hb. unfold transact in Ht.
  unfold WriteI2C, bind, kit_write, kit_read, ret, printf, log.
  cbn [world trace].
  rewrite Ht. apply Z.eqb_neq in Hb. rewrite Hb. cbn.
  rewrite <- !app_assoc. reflexivity.
Qed.

Lemma ReadI2c_acknowledged handle count w tr answer w1 :
  transact handle (read_request count) w = (answer, w1) ->
  Z.land (byte_of answer 0) 0x80 = 0 ->
  ReadI2c handle count (w @ tr)
  = (answer, w1 @ (tr ++ [Written handle (read_request count);
                          ReadBack handle answer])).
Proof.
  intros Ht Hb. unfold transact in Ht.
  unfold ReadI2c, bind, kit_write, kit_read, ret. cbn [world trace].
  rewrite Ht. rewrite Hb. cbn.
  rewrite <- app_assoc. reflexivity.
Qed.

Lemma ReadI2c_refused handle count w tr answer w1 :
  transact handle (read_request count) w = (answer, w1) ->
  Z.land (byte_of answer 0) 0x80 <> 0 ->
  ReadI2c handle count (w @ tr)
  = (answer, w1 @ (tr ++ [Written handle (read_request count);
                          ReadBack handle answer;
                          Printed ReadNotAcknowledged])).
Proof.
  intros Ht Hb. unfold transact in Ht.
  unfold ReadI2c, bind, kit_write, kit_read, ret, printf, log.
  cbn [world trace].
  rewrite Ht. apply Z.eqb_neq in Hb. rewrite Hb. cbn.
  rewrite <- !app_assoc. reflexivity.
Qed.

Lemma GetMeasurements_answered handle out w tr ack answer w2 :
  answered handle w ack answer w2 ->
  GetMeasurements handle out (w @ tr)
  = let T := ConvertTemperature (word_of answer 1) in
    let RH := ConvertHumidity (word_of answer 4) in
    let tr' := tr ++ measurement_trace handle ack answer in
    if negb (CRC.VerifyChecksum (word_span answer 1) (byte_of answer 3) =? 0)
    then ((-2, out), w2 @ (tr' ++ [Printed TemperatureChecksumError]))
    else if negb (CRC.VerifyChecksum (word_span answer 4) (byte_of answer 6) =? 0)
    then ((-3, {| out_temperature := T;
                  out_humidity := out_humidity out;
                  out_dew_point := out_dew_point out |}),
          w2 @ (tr' ++ [Printed HumidityChecksumError]))
    else if positive_humidity RH
    then ((0, {| out_temperature := T;
                 out_humidity := RH;
                 out_dew_point := dew_point_expr (fst (coefficients T))
                                                 (snd (coefficients T)) T RH |}),
          w2 @ tr')
    else ((0, {| out_temperature := T;
                 out_humidity := RH;
                 out_dew_point := out_dew_point out |}), w2 @ tr').
Proof.
  intros [w1 [Hw [Hack [Hr Hans]]]].
  unfold GetMeasurements. unfold bind at 1.
  rewrite (WriteI2C_acknowledged _ _ _ _ _ _ Hw Hack).
  change (negb (3 =? 3)) with false. cbv iota.
  unfold bind at 1.
  rewrite (ReadI2c_acknowledged _ _ _ _ _ _ Hr Hans).
  rewrite Hans. change (0 =? 0) with true. cbv iota.
  rewrite <- app_assoc.
  change ([Written handle (write_request MEASURE_T_RH_CLKSTR); ReadBack handle ack]
          ++ [Written handle (read_request 6); ReadBack handle answer])
    with (measurement_trace handle ack answer).
  cbv zeta.
  destruct (negb (CRC.VerifyChecksum (word_span answer 1) (byte_of answer 3) =? 0)).
  - reflexivity.
  - destruct (negb (CRC.VerifyChecksum (word_span answer 4) (byte_of answer 6) =? 0)).
    + reflexivity.
    + cbn [out_temperature out_humidity out_dew_point].
      destruct (positive_humidity (ConvertHumidity (word_of answer 4))).
      * destruct (coefficients (ConvertTemperature (word_of answer 1))) as [Tn m].
        reflexivity.
      * reflexivity.
Qed.


Lemma ConvertHumidity_uint16 (v : Z) : ConvertHumidity (uint16 v) = ConvertHumidity v.
Proof.
  unfold ConvertHumidity. rewrite (uint16_small (uint16 v)); [reflexivity|].
  apply uint16_range.
Qed.

Lemma positive_humidity_leb (v : Z) :
  positive_humidity (ConvertHumidity v)
  = negb (F32.leb (ConvertHumidity v) (F32.of_Z 0)).
Proof.
  rewrite <- ConvertHumidity_uint16. unfold positive_humidity.
  exact (proj2 (proj2 (ConvertHumidity_facts _ (uint16_range v)))).
Qed.

Lemma coefficients_literals (T : float) :
  coefficients T
  = if F32.ltb (F32.of_Z 0) T
    then (F32.of_decimal 24312 100, F32.of_decimal 1762 100)
    else (F32.of_decimal 27262 100, F32.of_decimal 2246 100).
Proof.
  unfold coefficients, positive_temperature.
  destruct (F32.ltb (F32.of_Z 0) T); vm_compute; reflexivity.
Qed.

(** The quotient [RH / 100.0] that reaches [logf], formed in binary64 and
    converted to [float], is the binary32 quotient of the humidity by 100,
    for every humidity the sensor can report. *)
Lemma percent_ratio_division (v : Z) :
  percent_ratio (ConvertHumidity v)
  = F32.div (ConvertHumidity v) (F32.of_Z 100).
Proof.
  rewrite <- ConvertHumidity_uint16.
  assert (Hc : humidity_check (uint16 v) = true).
  { apply (all_from_true _ _ _ humidity_checked).
    rewrite sixteen_bits_Z. pose proof (uint16_range v). lia. }
  unfold humidity_check in Hc. cbv zeta in Hc.
  apply andb_true_iff in Hc. destruct Hc as [_ Hc].
  apply float_eqb_eq. exact Hc.
Qed.

(** The dew point the code stores agrees with the specification's. *)
Lemma dew_point_refines (T : float) (v : Z) (previous : float) :
  (if positive_humidity (ConvertHumidity v)
   then dew_point_expr (fst (coefficients T)) (snd (coefficients T)) T
                       (ConvertHumidity v)
   else previous)
  = match dew_point_spec logf T (ConvertHumidity v) with
    | Some d => d
    | None => previous
    end.
Proof.
  unfold dew_point_spec. rewrite positive_humidity_leb.
  destruct (F32.leb (ConvertHumidity v) (F32.of_Z 0)); cbn [negb].
  - reflexivity.
  - rewrite coefficients_literals. unfold dew_point_expr.
    rewrite percent_ratio_division.
    destruct (F32.ltb (F32.of_Z 0) T); reflexivity.
Qed.

(** C4. When the reply's temperature word fails its checksum,
    [GetMeasurements] returns -2 and does nothing for the humidity: none of
    the three outputs is written, and after the four reports of the exchange
    the only thing that happens is the temperature error message. *)
Theorem GetMeasurements_temperature_checksum handle out w tr ack answer w2 :
  answered handle w ack answer w2 ->
  CRC.VerifyChecksum (word_span answer 1) (byte_of answer 3) <> 0 ->
  GetMeasurements handle out (w @ tr)
  = ((-2, out),
     w2 @ (tr ++ measurement_trace handle ack answer
              ++ [Printed TemperatureChecksumError])).
Proof.
  intros Ha Hc. rewrite (GetMeasurements_answered _ _ _ _ _ _ _ Ha). cbv zeta.
  apply Z.eqb_neq in Hc. rewrite Hc. cbn [negb].
  rewrite <- app_assoc. reflexivity.
Qed.

(** When the temperature word passes its checksum and the humidity word
    fails its own, [GetMeasurements] returns -3 with the converted
    temperature stored through its pointer; the humidity and dew point
    cells keep their previous content. *)
Lemma GetMeasurements_humidity_checksum handle out w tr ack answer w2 :
  answered handle w ack answer w2 ->
  CRC.VerifyChecksum (word_span answer 1) (byte_of answer 3) = 0 ->
  CRC.VerifyChecksum (word_span answer 4) (byte_of answer 6) <> 0 ->
  GetMeasurements handle out (w @ tr)
  = ((-3, {| out_temperature := ConvertTemperature (word_of answer 1);
             out_humidity := out_humidity out;
             out_dew_point := out_dew_point out |}),
     w2 @ (tr ++ measurement_trace handle ack answer
              ++ [Printed HumidityChecksumError])).
Proof.
  intros Ha Ht Hh. rewrite (GetMeasurements_answered _ _ _ _ _ _ _ Ha). cbv zeta.
  rewrite Ht. apply Z.eqb_neq in Hh. rewrite Hh. cbn [negb Z.eqb].
  rewrite <- app_assoc. reflexivity.
Qed.

(** C7. When both checksums pass, [GetMeasurements] returns 0 with the
    converted temperature and humidity, and its dew point output is the one
    of the specification: left as it was when the humidity is not positive,
    else the quotient formula with the coefficients (243.12, 17.62) for a
    positive temperature and (272.62, 22.46) otherwise, on the logarithm of
    rh/100. The code forms its ratio in [double]; for every humidity word of
    a reply that is the same [float] as the quotient of the
    specification. *)
Theorem GetMeasurements_dew_point handle out w tr ack answer w2 :
  answered handle w ack answer w2 ->
  CRC.VerifyChecksum (word_span answer 1) (byte_of answer 3) = 0 ->
  CRC.VerifyChecksum (word_span answer 4) (byte_of answer 6) = 0 ->
  let T := ConvertTemperature (word_of answer 1) in
  let RH := ConvertHumidity (word_of answer 4) in
  GetMeasurements handle out (w @ tr)
  = ((0, {| out_temperature := T;
            out_humidity := RH;
            out_dew_point := match dew_point_spec logf T RH with
                             | Some d => d
                             | None => out_dew_point out
                             end |}),
     w2 @ (tr ++ measurement_trace handle ack answer)).
Proof.
  intros Ha Ht Hh T RH. rewrite (GetMeasurements_answered _ _ _ _ _ _ _ Ha).
  subst T RH. cbv zeta. rewrite Ht, Hh. cbn [negb Z.eqb].
  rewrite <- (dew_point_refines (ConvertTemperature (word_of answer 1))
                (word_of answer 4) (out_dew_point out)).
  destruct (positive_humidity (ConvertHumidity (word_of answer 4))); reflexivity.
Qed.

(** C10. When both checksums pass and the converted humidity is not
    positive, [GetMeasurements] returns 0, stores the temperature and the
    humidity, and leaves the dew point cell with the value it had: nothing
    is stored there and nothing is printed. *)
Theorem GetMeasurements_dew_point_kept handle out w tr ack answer w2 :
  answered handle w ack answer w2 ->
  CRC.VerifyChecksum (word_span answer 1) (byte_of answer 3) = 0 ->
  CRC.VerifyChecksum (word_span answer 4) (byte_of answer 6) = 0 ->
  F32.leb (ConvertHumidity (word_of answer 4)) (F32.of_Z 0) = true ->
  GetMeasurements handle out (w @ tr)
  = ((0, {| out_temperature := ConvertTemperature (word_of answer 1);
            out_humidity := ConvertHumidity (word_of answer 4);
            out_dew_point := out_dew_point out |}),
     w2 @ (tr ++ measurement_trace handle ack answer)).
Proof.
  intros Ha Ht Hh Hle. rewrite (GetMeasurements_answered _ _ _ _ _ _ _ Ha).
  cbv zeta. rewrite Ht, Hh. cbn [negb Z.eqb].
  rewrite positive_humidity_leb, Hle. reflexivity.
Qed.


(** *** UpdateSensorsMeasurements *)

Lemma UpdateSensorsMeasurements_loop_polled sensors_table n st :
  UpdateSensorsMeasurements_loop sensors_table n st
  = match polled_sensor sensors_table n with
    | Some (k, sensor) =>
        let (r, st') := measure_into_table sensors_table k sensor st in
        ((fst r, Some (snd r)), st')
    | None => ((sensors_table, None), st)
    end.
Proof.
  induction n as [|k IH]; cbn [UpdateSensorsMeasurements_loop polled_sensor].
  - reflexivity.
  - destruct (nth_error sensors_table k) as [sensor|]; [|exact IH].
    destruct (negb (usb_stick_handle sensor =? 0)); [|exact IH].
    unfold bind, ret.
    destruct (measure_into_table sensors_table k sensor st) as [r st'].
    reflexivity.
Qed.

Lemma measure_into_table_answered sensors_table k sensor w tr ack answer w2 :
  answered (usb_stick_handle sensor) w ack answer w2 ->
  measure_into_table sensors_table k sensor (w @ tr)
  = let T := ConvertTemperature (word_of answer 1) in
    let RH := ConvertHumidity (word_of answer 4) in
    let tr' := tr ++ measurement_trace (usb_stick_handle sensor) ack answer in
    if negb (CRC.VerifyChecksum (word_span answer 1) (byte_of answer 3) =? 0)
    then ((sensors_table, -2), w2 @ (tr' ++ [Printed TemperatureChecksumError]))
    else if negb (CRC.VerifyChecksum (word_span answer 4) (byte_of answer 6) =? 0)
    then ((sensors_table, -3), w2 @ (tr' ++ [Printed HumidityChecksumError]))
    else ((store_at k
             {| stick_serial_number := stick_serial_number sensor;
                usb_stick_handle := usb_stick_handle sensor;
                temperature := T;
                humidity := RH;
                dew_point := if positive_humidity RH
                             then dew_point_expr (fst (coefficients T))
                                                 (snd (coefficients T)) T RH
                             else F32.of_Z 1000;
                name := name sensor;
                info := info sensor |} sensors_table, 0), w2 @ tr').
Proof.
  intros [w1 [Hw [Hack [Hr Hans]]]].
  unfold measure_into_table. unfold bind at 1.
  rewrite (WriteI2C_acknowledged _ _ _ _ _ _ Hw Hack).
  change (negb (3 =? 3)) with false. cbv iota.
  unfold bind at 1.
  rewrite (ReadI2c_acknowledged _ _ _ _ _ _ Hr Hans).
  rewrite Hans. change (0 =? 0) with true. cbv iota.
  rewrite <- app_assoc.
  change ([Written (usb_stick_handle sensor) (write_request MEASURE_T_RH_CLKSTR);
           ReadBack (usb_stick_handle sensor) ack]
          ++ [Written (usb_stick_handle sensor) (read_request 6);
              ReadBack (usb_stick_handle sensor) answer])
    with (measurement_trace (usb_stick_handle sensor) ack answer).
  cbv zeta.
  destruct (negb (CRC.VerifyChecksum (word_span answer 1) (byte_of answer 3) =? 0)).
  - reflexivity.
  - destruct (negb (CRC.VerifyChecksum (word_span answer 4) (byte_of answer 6) =? 0)).
    + reflexivity.
    + destruct (positive_humidity (ConvertHumidity (word_of answer 4))).
      * destruct (coefficients (ConvertTemperature (word_of answer 1))) as [Tn m].
        reflexivity.
      * reflexivity.
Qed.




(** *** One handle per call *)


Lemma store_at_handles (sensors_table : list SHTW1_SENSOR) :
  forall k sensor updated,
  nth_error sensors_table k = Some sensor ->
  usb_stick_handle updated = usb_stick_handle sensor ->
  map usb_stick_handle (store_at k updated sensors_table)
  = map usb_stick_handle sensors_table.
Proof.
  induction sensors_table as [|s rest IH]; intros [|k] sensor updated Hn Hh;
    cbn [store_at map]; try reflexivity.
  - cbn in Hn. injection Hn as ->. rewrite Hh. reflexivity.
  - cbn in Hn. rewrite (IH k sensor updated Hn Hh). reflexivity.
Qed.

Lemma polled_sensor_nth sensors_table n k sensor :
  polled_sensor sensors_table n = Some (k, sensor) ->
  nth_error sensors_table k = Some sensor /\ usb_stick_handle sensor <> 0.
Proof.
  induction n as [|m IH]; cbn [polled_sensor]; [discriminate|].
  destruct (nth_error sensors_table m) as [s|] eqn:E; [|exact IH].
  destruct (Z.eqb_spec (usb_stick_handle s) 0) as [Hz|Hz]; cbn [negb]; [exact IH|].
  intros H. injection H as <- <-. split; assumption.
Qed.

Lemma measure_into_table_trace sensors_table k sensor st :
  nth_error sensors_table k = Some sensor ->
  exists evs,
    trace (snd (measure_into_table sensors_table k sensor st)) = trace st ++ evs
    /\ measured_handles evs = [usb_stick_handle sensor]
    /\ map usb_stick_handle (fst (fst (measure_into_table sensors_table k sensor st)))
       = map usb_stick_handle sensors_table.
Proof.
  intros Hnth. destruct st as [w tr].
  unfold measure_into_table, WriteI2C, ReadI2c, bind, kit_write, kit_read,
    printf, log, ret.
  cbn [world trace].
  destruct (IowKitRead (usb_stick_handle sensor)
              (IowKitWrite (usb_stick_handle sensor)
                 (write_request MEASURE_T_RH_CLKSTR) w)) as [ack w1].
  destruct (negb (Z.land (byte_of ack 0) 128 =? 0)); cbn [negb Z.eqb world trace fst snd].
  - eexists. split; [rewrite <- !app_assoc; reflexivity|]. split; reflexivity.
  - destruct (negb (int8 (byte_of ack 0) =? 3)); cbn [world trace fst snd].
    + eexists. split; [rewrite <- !app_assoc; reflexivity|]. split; reflexivity.
    + destruct (IowKitRead (usb_stick_handle sensor)
                  (IowKitWrite (usb_stick_handle sensor) (read_request 6) w1))
        as [answer w2].
      destruct (negb (Z.land (byte_of answer 0) 128 =? 0)) eqn:E;
        cbn [world trace fst snd].
      * apply negb_true_iff in E. rewrite E. cbn [world trace fst snd].
        eexists. split; [rewrite <- !app_assoc; reflexivity|]. split; reflexivity.
      * apply negb_false_iff in E. rewrite E.
        destruct (negb (CRC.VerifyChecksum (word_span answer 1) (byte_of answer 3) =? 0));
          cbn [world trace fst snd].
        { eexists. split; [rewrite <- !app_assoc; reflexivity|]. split; reflexivity. }
        destruct (negb (CRC.VerifyChecksum (word_span answer 4) (byte_of answer 6) =? 0));
          cbn [world trace fst snd].
        { eexists. split; [rewrite <- !app_assoc; reflexivity|]. split; reflexivity. }
        eexists. split; [rewrite <- !app_assoc; reflexivity|]. split; [reflexivity|].
        apply (store_at_handles _ _ sensor); [exact Hnth|reflexivity].
Qed.

(** One call of [UpdateSensorsMeasurements] writes the measure command to
    the handle of the polled sensor and to no other, whatever the devices
    answer, and leaves every handle of the table as it was. *)
Lemma UpdateSensorsMeasurements_one_handle sensors_table st :
  exists evs,
    trace (snd (UpdateSensorsMeasurements sensors_table st)) = trace st ++ evs
    /\ measured_handles evs
       = match polled_sensor sensors_table (List.length sensors_table) with
         | Some (_, sensor) => [usb_stick_handle sensor]
         | None => []
         end
    /\ map usb_stick_handle (fst (fst (UpdateSensorsMeasurements sensors_table st)))
       = map usb_stick_handle sensors_table.
Proof.
  unfold UpdateSensorsMeasurements. rewrite UpdateSensorsMeasurements_loop_polled.
  destruct (polled_sensor sensors_table (List.length sensors_table))
    as [[k sensor]|] eqn:Hp.
  - destruct (polled_sensor_nth _ _ _ _ Hp) as [Hnth _].
    destruct (measure_into_table_trace sensors_table k sensor st Hnth)
      as [evs [Ht [Hm Hh]]].
    destruct (measure_into_table sensors_table k sensor st) as [r st'].
    exists evs. cbn [fst snd] in *. auto.
  - exists []. cbn [fst snd]. rewrite app_nil_r. auto.
Qed.
(** *** Failures of a cycle *)





End DeviceFacts.


(** *** Runs on the bench *)

Lemma bench_answered (answer : IOWKIT_SPECIAL_REPORT) :
  Z.land (byte_of answer 0) 0x80 = 0 ->
  answered (platform := bench) 1 (bench_with 1 [acknowledged; answer])
           acknowledged answer
           (after_reads 2 1 (bench_with 1 [acknowledged; answer])).
Proof.
  intros H. exists (after_reads 1 1 (bench_with 1 [acknowledged; answer])).
  split; [reflexivity|]. split; [reflexivity|]. split; [reflexivity|exact H].
Qed.

Lemma GetMeasurements_temperature_checksum_witness :
  fst (GetMeasurements 1 stale
         (bench_state (bench_with 1 [acknowledged; bad_temperature_reply])))
  = (-2, stale).
Proof.
  unfold bench_state.
  rewrite (GetMeasurements_temperature_checksum (platform := bench)
             1 stale _ [] acknowledged bad_temperature_reply _
             (bench_answered bad_temperature_reply eq_refl)).
  - reflexivity.
  - vm_compute. discriminate.
Defined.

Lemma GetMeasurements_humidity_checksum_witness :
  fst (GetMeasurements 1 stale
         (bench_state (bench_with 1 [acknowledged; bad_humidity_reply])))
  = (-3, {| out_temperature := ConvertTemperature 0x6666;
            out_humidity := out_humidity stale;
            out_dew_point := out_dew_point stale |}).
Proof.
  unfold bench_state.
  rewrite (GetMeasurements_humidity_checksum (platform := bench)
             1 stale _ [] acknowledged bad_humidity_reply _
             (bench_answered bad_humidity_reply eq_refl)).
  - reflexivity.
  - vm_compute. reflexivity.
  - vm_compute. discriminate.
Defined.

Lemma GetMeasurements_dew_point_witness :
  fst (GetMeasurements 1 stale
         (bench_state (bench_with 1 [acknowledged; good_reply])))
  = (0, {| out_temperature := ConvertTemperature 0x6666;
           out_humidity := ConvertHumidity 0x8000;
           out_dew_point := S754_finite false 14523409 (-20) |}).
Proof.
  unfold bench_state.
  rewrite (GetMeasurements_dew_point (platform := bench)
             1 stale _ [] acknowledged good_reply _
             (bench_answered good_reply eq_refl)).
  - vm_compute. reflexivity.
  - vm_compute. reflexivity.
  - vm_compute. reflexivity.
Defined.

Lemma GetMeasurements_dew_point_kept_witness :
  fst (GetMeasurements 1 stale
         (bench_state (bench_with 1 [acknowledged; zero_humidity_reply])))
  = (0, {| out_temperature := ConvertTemperature 0x6666;
           out_humidity := ConvertHumidity 0;
           out_dew_point := out_dew_point stale |}).
Proof.
  unfold bench_state.
  rewrite (GetMeasurements_dew_point_kept (platform := bench)
             1 stale _ [] acknowledged zero_humidity_reply _
             (bench_answered zero_humidity_reply eq_refl)).
  - reflexivity.
  - vm_compute. reflexivity.
  - vm_compute. reflexivity.
  - vm_compute. reflexivity.
Defined.



(** C1 fails on the code: with two bound sensors that would both answer,
    one call of [UpdateSensorsMeasurements] returns 0 after measuring the
    sensor of the last index only; the other is never addressed and keeps
    the values it had. *)
Theorem UpdateSensorsMeasurements_two_bound :
  let run := UpdateSensorsMeasurements two_sensors (bench_state healthy_bench) in
  bound_handles two_sensors = [1; 2]
  /\ snd (fst run) = Some 0
  /\ measured_handles (trace (snd run)) = [2]
  /\ nth_error (fst (fst run)) 0 = Some (sensor_on 1 "inner" 6181)
  /\ option_map temperature (nth_error (fst (fst run)) 1)
     = Some (ConvertTemperature 0x6666).
Proof.
  vm_compute. repeat split; reflexivity.
Qed.

(** C5 fails on the copy of the transaction that the program runs. The
    same reply, with a valid temperature word and a humidity word that
    fails its checksum, gives -3 in both places; [GetMeasurements] hands
    the converted temperature to its caller, [UpdateSensorsMeasurements]
    keeps it in a local and returns before any store: the entry of the
    sensor still holds 1000. *)
Theorem UpdateSensorsMeasurements_withholds_temperature :
  let w := bench_with 1 [acknowledged; bad_humidity_reply] in
  let inner := sensor_on 1 "inner" 6181 in
  let direct := GetMeasurements 1 stale (bench_state w) in
  let polled := UpdateSensorsMeasurements [inner] (bench_state w) in
  fst direct = (-3, {| out_temperature := ConvertTemperature 0x6666;
                       out_humidity := out_humidity stale;
                       out_dew_point := out_dew_point stale |})
  /\ fst polled = ([inner], Some (-3))
  /\ option_map temperature (nth_error (fst (fst polled)) 0)
     = Some (F32.of_Z 1000)
  /\ trace (snd polled) = trace (snd direct).
Proof.
  vm_compute. repeat split; reflexivity.
Qed.



(** C9 fails on the code: the line [inner<tab>12abc] has a serial field
    that is not a decimal number, yet it is accepted without any report and
    yields an entry with serial 12; the line [left<tab>0], whose serial is a
    decimal number, is reported as not decimal and skipped. *)
Theorem LoadConfiguration_accepts_trailing_letters :
  LoadConfiguration (Some sample_configuration) 0 (-1) (empty_table 3)
  = Some {| return_code := 0;
            table_after := [new_sensor 6873 "outer"; new_sensor 12 "inner";
                            new_sensor 0 EmptyString];
            number_of_sensors := 2;
            output := [ReadingConfiguration;
                       NotADecimalNumber 3
                         ("left" ++ String SEPARATION_CHAR "0") "0"] |}.
Proof.
  vm_compute. reflexivity.
Qed.

(** The sample of the specification: about 25 degrees and 50 % give a dew
    point within 0.1 of 13.87. *)
Example dew_point_sample :
  let d := float_value
             (out_dew_point (snd (fst (GetMeasurements 1 stale
                (bench_state (bench_with 1 [acknowledged; good_reply])))))) in
  (Qle_bool (1377 # 100) d && Qle_bool d (1397 # 100))%bool = true.
Proof. vm_compute. reflexivity. Qed.

(** At 50 % the ratio formed in binary64 is the binary32 quotient, 1/2. *)
Example percent_ratio_sample :
  percent_ratio (ConvertHumidity 0x8000) = F32.div (ConvertHumidity 0x8000) (F32.of_Z 100)
  /\ percent_ratio (ConvertHumidity 0x8000) = S754_finite false 8388608 (-24).
Proof. vm_compute. split; reflexivity. Qed.

(** ** Further properties *)

(** ** Further properties *)

(** *** Error detection of the checksum *)

Module CRCDetection.
Import CRC.

Lemma unshift_shift (x : Z) : 0 <= x < 256 -> unshift_step (shift_step x) = x.
Proof.
  intros Hx.
  assert (H : all_from 256 0 (fun x => unshift_step (shift_step x) =? x) = true)
    by (vm_compute; reflexivity).
  apply Z.eqb_eq. apply (all_from_true _ _ _ H). simpl. lia.
Qed.

Lemma shift_step_injective (x y : Z) :
  0 <= x < 256 -> 0 <= y < 256 -> shift_step x = shift_step y -> x = y.
Proof.
  intros Hx Hy H. rewrite <- (unshift_shift x Hx), <- (unshift_shift y Hy), H.
  reflexivity.
Qed.

Lemma bit_loop_injective (n : nat) :
  forall x y, 0 <= x < 256 -> 0 <= y < 256 ->
  bit_loop n x = bit_loop n y -> x = y.
Proof.
  induction n as [|k IH]; intros x y Hx Hy H; cbn [bit_loop] in H.
  - exact H.
  - apply shift_step_injective; try assumption.
    apply IH; try assumption.
    + destruct (CRCFacts.shift_step_ref x Hx) as [-> Hr]. exact Hr.
    + destruct (CRCFacts.shift_step_ref y Hy) as [-> Hr]. exact Hr.
Qed.

Lemma uint8_lxor_cancel (c d b : Z) :
  uint8 (Z.lxor c b) = uint8 (Z.lxor d b) -> uint8 c = uint8 d.
Proof.
  unfold uint8. intros H. apply Z.bits_inj'. intros n Hn.
  pose proof (f_equal (fun z => Z.testbit z n) H) as Hb. cbv beta in Hb.
  rewrite !Z.land_spec, !Z.lxor_spec in Hb. rewrite !Z.land_spec.
  destruct (Z.testbit 255 n).
  - rewrite !andb_true_r in *.
    destruct (Z.testbit c n), (Z.testbit d n), (Z.testbit b n);
      simpl in Hb; congruence.
  - rewrite !andb_false_r. reflexivity.
Qed.

Lemma byte_loop_injective (data : list Z) :
  forall c d, 0 <= c < 256 -> 0 <= d < 256 ->
  byte_loop data c = byte_loop data d -> c = d.
Proof.
  induction data as [|b rest IH]; intros c d Hc Hd H; cbn [byte_loop] in H.
  - exact H.
  - apply IH in H; try (apply CRCFacts.bit_loop_ref; apply uint8_range).
    apply bit_loop_injective in H; try apply uint8_range.
    apply uint8_lxor_cancel in H.
    rewrite !uint8_small in H by assumption. exact H.
Qed.

Lemma byte_loop_app (pre post : list Z) (c : Z) :
  byte_loop (pre ++ post) c = byte_loop post (byte_loop pre c).
Proof.
  revert c. induction pre as [|b rest IH]; intros c; cbn [byte_loop app].
  - reflexivity.
  - apply IH.
Qed.

End CRCDetection.

(** X1. A change of one byte of a checked span, whatever stands before and
    after it, always changes the checksum: the corrupted span never
    verifies against the checksum of the original. In particular every
    single flipped bit is detected. *)
Theorem VerifyChecksum_detects_byte_change (pre post : list Z) (b b' : Z) :
  CRC.is_byte b -> CRC.is_byte b' -> b <> b' ->
  CRC.compute (pre ++ b' :: post) <> CRC.compute (pre ++ b :: post)
  /\ CRC.VerifyChecksum (pre ++ b' :: post) (CRC.compute (pre ++ b :: post)) = -2.
Proof.
  intros Hb Hb' Hne.
  assert (Hd : CRC.compute (pre ++ b' :: post) <> CRC.compute (pre ++ b :: post)).
  { unfold CRC.compute. rewrite !CRCDetection.byte_loop_app.
    cbn [CRC.byte_loop]. intros H.
    assert (Hc : 0 <= CRC.byte_loop pre 255 < 256)
      by (apply CRCFacts.byte_loop_range; lia).
    apply CRCDetection.byte_loop_injective in H;
      try (apply CRCFacts.bit_loop_ref; apply uint8_range).
    apply CRCDetection.bit_loop_injective in H; try apply uint8_range.
    rewrite (Z.lxor_comm _ b'), (Z.lxor_comm _ b) in H.
    apply CRCDetection.uint8_lxor_cancel in H.
    rewrite !uint8_small in H by assumption. congruence. }
  split; [exact Hd|].
  destruct (CRCFacts.VerifyChecksum_values (pre ++ b' :: post)
              (CRC.compute (pre ++ b :: post))) as [H0|H2]; [|exact H2].
  apply CRCFacts.VerifyChecksum_byte in H0; [congruence|].
  apply CRCFacts.compute_range.
Qed.

Lemma VerifyChecksum_detects_byte_change_witness :
  CRC.VerifyChecksum [0xBE; 0xEE] (CRC.compute [0xBE; 0xEF]) = -2.
Proof.
  refine (proj2 (VerifyChecksum_detects_byte_change [0xBE] [] 0xEF 0xEE _ _ _)).
  - unfold CRC.is_byte. lia.
  - unfold CRC.is_byte. lia.
  - discriminate.
Defined.

(** *** Range and order of the conversions *)

(** X2. The conversions keep the order of the raw values and stay in the
    range of the sensor: a larger raw word gives a strictly larger
    temperature and humidity, every temperature lies in [-45, 130) and
    every humidity in [0, 100). *)
Theorem conversions_monotone (raw1 raw2 : Z) :
  0 <= raw1 -> raw1 < raw2 -> raw2 < 65536 ->
  (float_value (ConvertTemperature raw1) < float_value (ConvertTemperature raw2)
   /\ - (45) <= float_value (ConvertTemperature raw1)
   /\ float_value (ConvertTemperature raw2) < 130
   /\ float_value (ConvertHumidity raw1) < float_value (ConvertHumidity raw2)
   /\ 0 <= float_value (ConvertHumidity raw1)
   /\ float_value (ConvertHumidity raw2) < 100)%Q.
Proof.
  intros H0 H12 H2.
  destruct (ConvertTemperature_exact raw1 ltac:(lia)) as [_ T1].
  destruct (ConvertTemperature_exact raw2 ltac:(lia)) as [_ T2].
  destruct (ConvertHumidity_facts raw1 ltac:(lia)) as [_ [R1 _]].
  destruct (ConvertHumidity_facts raw2 ltac:(lia)) as [_ [R2 _]].
  rewrite T1, T2, R1, R2.
  assert (Q0 : (0 <= inject_Z raw1)%Q) by (rewrite <- (Zle_Qle 0); exact H0).
  assert (Q12 : (inject_Z raw1 < inject_Z raw2)%Q) by (rewrite <- Zlt_Qlt; exact H12).
  assert (Q2 : (inject_Z raw2 < 65536)%Q) by (rewrite <- (Zlt_Qlt _ 65536); exact H2).
  unfold Qdiv. change (/ 65536)%Q with (1 # 65536)%Q.
  repeat split; lra.
Qed.

Lemma conversions_monotone_witness :
  (float_value (ConvertTemperature 0x6666) < float_value (ConvertTemperature 0x6667))%Q.
Proof.
  refine (proj1 (conversions_monotone 0x6666 0x6667 _ _ _)); lia.
Defined.

(** *** Words of a report *)

Lemma word_of_big_endian (report : IOWKIT_SPECIAL_REPORT) (i : nat) :
  word_of report i = 256 * byte_of report i + byte_of report (S i)
  /\ 0 <= word_of report i < 65536.
Proof.
  unfold word_of.
  pose proof (uint8_range (nth i (Bytes report) 0)) as Hh.
  pose proof (uint8_range (nth (S i) (Bytes report) 0)) as Hl.
  unfold byte_of.
  set (hi := uint8 (nth i (Bytes report) 0)) in *.
  set (lo := uint8 (nth (S i) (Bytes report) 0)) in *.
  assert (E : Z.lor (Z.shiftl hi 8) lo = 256 * hi + lo).
  { rewrite Z.shiftl_mul_pow2 by lia. change (2 ^ 8) with 256.
    rewrite <- Z.lxor_lor.
    - rewrite <- Z.add_nocarry_lxor; [lia|].
      apply Z.bits_inj'. intros n Hn. rewrite Z.land_spec, Z.bits_0.
      destruct (Z.ltb_spec n 8) as [Hs|Hs].
      + replace (hi * 256) with (hi * 2 ^ 8) by reflexivity.
        rewrite Z.mul_pow2_bits_low by lia. reflexivity.
      + rewrite (Z.bits_above_log2 lo n); [apply andb_false_r|lia|].
        destruct (Z.eq_dec lo 0) as [->|]; [simpl; lia|].
        apply Z.lt_le_trans with 8; [|exact Hs].
        apply Z.log2_lt_pow2; lia.
    - apply Z.bits_inj'. intros n Hn. rewrite Z.land_spec, Z.bits_0.
      destruct (Z.ltb_spec n 8) as [Hs|Hs].
      + replace (hi * 256) with (hi * 2 ^ 8) by reflexivity.
        rewrite Z.mul_pow2_bits_low by lia. reflexivity.
      + rewrite (Z.bits_above_log2 lo n); [apply andb_false_r|lia|].
        destruct (Z.eq_dec lo 0) as [->|]; [simpl; lia|].
        apply Z.lt_le_trans with 8; [|exact Hs].
        apply Z.log2_lt_pow2; lia. }
  rewrite E. lia.
Qed.

(** *** The transport layer *)

Lemma top_bit (b : Z) :
  0 <= b < 256 ->
  (Z.land b 0x80 =? 0) = negb (Z.testbit b 7)
  /\ (Z.testbit b 7 = false -> int8 b = b /\ b < 128).
Proof.
  intros Hb.
  assert (H : all_from 256 0
                (fun b => Bool.eqb (Z.land b 0x80 =? 0) (negb (Z.testbit b 7))
                          && (Z.testbit b 7 || ((int8 b =? b) && (b <? 128))))
              = true) by (vm_compute; reflexivity).
  pose proof (all_from_true _ _ _ H b ltac:(simpl; lia)) as Hc. cbv beta in Hc.
  apply andb_true_iff in Hc. destruct Hc as [H1 H2].
  split; [apply Bool.eqb_prop; exact H1|].
  intros Ht. rewrite Ht in H2. cbn [orb] in H2.
  apply andb_true_iff in H2. destruct H2 as [H2 H3].
  apply Z.eqb_eq in H2. apply Z.ltb_lt in H3. split; assumption.
Qed.

Lemma byte_of_range (report : IOWKIT_SPECIAL_REPORT) (i : nat) :
  0 <= byte_of report i < 256.
Proof. apply uint8_range. Qed.

(** X3. The command of a write report reads back from it: for every 16-bit
    command, bytes 2 and 3 of the report [WriteI2C] sends hold the command
    most significant byte first, behind the mode byte 0xC3 and the write
    address 0xE0 of a report with ID 2. *)
Theorem write_request_round_trip (command : Z) :
  0 <= command < 65536 ->
  word_of (write_request command) 2 = command
  /\ ReportID (write_request command) = 0x02
  /\ byte_of (write_request command) 0 = 0xC3
  /\ byte_of (write_request command) 1 = I2C_WRITE_COMMAND
  /\ List.length (Bytes (write_request command)) = 7%nat.
Proof.
  intros Hc.
  split; [|repeat split].
  rewrite (proj1 (word_of_big_endian _ _)).
  unfold byte_of, write_request. cbn [Bytes nth].
  rewrite !(uint8_small (uint8 _)) by apply uint8_range.
  unfold uint8. change 0xFF with (Z.ones 8).
  rewrite !Z.land_ones by lia. rewrite Z.shiftr_div_pow2 by lia.
  change (2 ^ 8) with 256.
  rewrite Zmod_mod. rewrite (Z.mod_small (command / 256)).
  - pose proof (Z.div_mod command 256 ltac:(lia)).
    rewrite ?Zmod_mod. lia.
  - split; [apply Z.div_pos; lia|].
    apply Z.div_lt_upper_bound; lia.
Qed.

Lemma write_request_round_trip_witness :
  word_of (write_request MEASURE_T_RH_CLKSTR) 2 = 0x7CA2.
Proof.
  refine (proj1 (write_request_round_trip MEASURE_T_RH_CLKSTR _)).
  unfold MEASURE_T_RH_CLKSTR. lia.
Defined.

Section TransportFacts.

Context {platform : Platform}.

Local Notation "w @ tr" := {| world := w; trace := tr |} (at level 50).

Lemma WriteI2C_accepted handle command w tr ack w1 :
  transact handle (write_request command) w = (ack, w1) ->
  Z.testbit (byte_of ack 0) 7 = false ->
  WriteI2C handle command (w @ tr)
  = (byte_of ack 0, w1 @ (tr ++ [Written handle (write_request command);
                                 ReadBack handle ack])).
Proof.
  intros Ht E.
  destruct (top_bit _ (byte_of_range ack 0)) as [Hb Hs].
  destruct (Hs E) as [Hi Hlt].
  unfold transact in Ht.
  unfold WriteI2C, bind, kit_write, kit_read, ret. cbn [world trace].
  rewrite Ht, Hb, E, Hi. cbn [negb app].
  rewrite <- app_assoc. reflexivity.
Qed.

Lemma WriteI2C_world handle command w tr ack w1 :
  transact handle (write_request command) w = (ack, w1) ->
  exists r tail, WriteI2C handle command (w @ tr) = (r, w1 @ (tr ++ tail)).
Proof.
  intros Ht.
  destruct (top_bit _ (byte_of_range ack 0)) as [Hb _].
  destruct (Z.testbit (byte_of ack 0) 7) eqn:E.
  - eexists _, _. apply (WriteI2C_refused _ _ _ _ _ _ Ht).
    apply Z.eqb_neq. rewrite Hb. reflexivity.
  - eexists _, _. apply (WriteI2C_accepted _ _ _ _ _ _ Ht E).
Qed.

(** X4. [WriteI2C] makes one exchange on its handle and decodes the first
    byte of the reply: with the top bit set the result is -1, whatever the
    other bytes are, and the failure is printed; otherwise the result is
    that byte, the count of bytes the device took, between 0 and 127. *)
Theorem WriteI2C_decodes_ack handle command w tr ack w1 :
  transact handle (write_request command) w = (ack, w1) ->
  exists r tail,
    WriteI2C handle command (w @ tr)
    = (r, w1 @ (tr ++ [Written handle (write_request command);
                       ReadBack handle ack] ++ tail))
    /\ (Z.testbit (byte_of ack 0) 7 = true ->
          r = -1 /\ tail = [Printed WriteNotAcknowledged])
    /\ (Z.testbit (byte_of ack 0) 7 = false ->
          r = byte_of ack 0 /\ 0 <= r < 128 /\ tail = []).
Proof.
  intros Ht.
  destruct (top_bit _ (byte_of_range ack 0)) as [Hb Hs].
  destruct (Z.testbit (byte_of ack 0) 7) eqn:E.
  - exists (-1), [Printed WriteNotAcknowledged]. split.
    + apply (WriteI2C_refused _ _ _ _ _ _ Ht).
      apply Z.eqb_neq. rewrite Hb. reflexivity.
    + split; [auto|discriminate].
  - destruct (Hs eq_refl) as [Hi Hlt].
    exists (byte_of ack 0), []. split.
    + cbn [app]. apply (WriteI2C_accepted _ _ _ _ _ _ Ht E).
    + split; [discriminate|]. intros _.
      pose proof (byte_of_range ack 0). repeat split; lia.
Qed.

End TransportFacts.

Lemma WriteI2C_decodes_ack_witness :
  fst (WriteI2C 1 SOFT_RESET (bench_state (bench_with 1 [acknowledged]))) = 3.
Proof.
  destruct (WriteI2C_decodes_ack (platform := bench) 1 SOFT_RESET
              (bench_with 1 [acknowledged]) [] acknowledged
              (after_reads 1 1 (bench_with 1 [acknowledged])) eq_refl)
    as [r [tail [Hrun [_ Hok]]]].
  unfold bench_state. rewrite Hrun. cbn [fst].
  exact (proj1 (Hok eq_refl)).
Defined.

(** *** GetMeasurements on every device behaviour *)

Section MeasureFacts.

Context {platform : Platform}.

Local Notation "w @ tr" := {| world := w; trace := tr |} (at level 50).

Lemma GetMeasurements_cases handle out st :
  exists code out' evs,
    fst (GetMeasurements handle out st) = (code, out')
    /\ trace (snd (GetMeasurements handle out st)) = trace st ++ evs
    /\ Forall (on_handle handle) evs
    /\ ((code = -1 /\ out' = out
         /\ written_reports evs = [write_request MEASURE_T_RH_CLKSTR])
        \/ ((code = -1 /\ out' = out
             \/ code = -2 /\ out' = out
             \/ code = -3
                /\ out_humidity out' = out_humidity out
                /\ out_dew_point out' = out_dew_point out
             \/ code = 0)
            /\ written_reports evs = [write_request MEASURE_T_RH_CLKSTR;
                                      read_request 0x06])).
Proof.
  destruct st as [w tr].
  unfold GetMeasurements, WriteI2C, ReadI2c, bind, kit_write, kit_read,
    printf, log, ret.
  cbn [world trace].
  destruct (IowKitRead handle
              (IowKitWrite handle (write_request MEASURE_T_RH_CLKSTR) w))
    as [ack w1].
  destruct (negb (Z.land (byte_of ack 0) 128 =? 0));
    cbn [negb Z.eqb world trace fst snd].
  - eexists _, _, _. split; [reflexivity|].
    split; [rewrite <- !app_assoc; reflexivity|].
    split; [repeat constructor|]. left. repeat split.
  - destruct (negb (int8 (byte_of ack 0) =? 3)); cbn [world trace fst snd].
    + eexists _, _, _. split; [reflexivity|].
      split; [rewrite <- !app_assoc; reflexivity|].
      split; [repeat constructor|]. left. repeat split.
    + destruct (IowKitRead handle (IowKitWrite handle (read_request 6) w1))
        as [answer w2].
      destruct (negb (Z.land (byte_of answer 0) 128 =? 0)) eqn:E;
        cbn [world trace fst snd].
      * apply negb_true_iff in E. rewrite E. cbn [world trace fst snd].
        eexists _, _, _. split; [reflexivity|].
        split; [rewrite <- !app_assoc; reflexivity|].
        split; [repeat constructor|]. right. split; [|reflexivity]. auto.
      * apply negb_false_iff in E. rewrite E.
        destruct (negb (CRC.VerifyChecksum (word_span answer 1)
                                           (byte_of answer 3) =? 0));
          cbn [world trace fst snd].
        { eexists _, _, _. split; [reflexivity|].
          split; [rewrite <- !app_assoc; reflexivity|].
          split; [repeat constructor|]. right. split; [|reflexivity]. auto. }
        destruct (negb (CRC.VerifyChecksum (word_span answer 4)
                                           (byte_of answer 6) =? 0));
          cbn [world trace fst snd out_temperature out_humidity out_dew_point].
        { eexists _, _, _. split; [reflexivity|].
          split; [rewrite <- !app_assoc; reflexivity|].
          split; [repeat constructor|]. right. split; [|reflexivity].
          right. right. left. auto. }
        destruct (positive_humidity (ConvertHumidity (word_of answer 4))).
        { destruct (coefficients (ConvertTemperature (word_of answer 1)))
            as [Tn m]. cbn [fst snd world trace].
          eexists _, _, _. split; [reflexivity|].
          split; [rewrite <- !app_assoc; reflexivity|].
          split; [repeat constructor|]. right. split; [|reflexivity]. auto. }
        cbn [fst snd world trace].
        eexists _, _, _. split; [reflexivity|].
        split; [rewrite <- !app_assoc; reflexivity|].
        split; [repeat constructor|]. right. split; [|reflexivity]. auto.
Qed.

(** X5. Whatever the device answers, [GetMeasurements] returns 0, -1, -2 or
    -3; on -1 and -2 it has written none of its three outputs, and on -3
    it has written the temperature only: humidity and dew point are stored
    on 0 alone. *)
Theorem GetMeasurements_frame handle out st :
  let code := fst (fst (GetMeasurements handle out st)) in
  let out' := snd (fst (GetMeasurements handle out st)) in
  (code = 0 \/ code = -1 \/ code = -2 \/ code = -3)
  /\ (code = -1 \/ code = -2 -> out' = out)
  /\ (code = -3 -> out_humidity out' = out_humidity out
                   /\ out_dew_point out' = out_dew_point out).
Proof.
  destruct (GetMeasurements_cases handle out st)
    as [code [out' [evs [Hr [_ [_ Hc]]]]]].
  cbv zeta. rewrite Hr. cbn [fst snd].
  destruct Hc as [[-> [-> _]] | [[[-> ->] | [[-> ->] | [[-> [Hh Hd]] | ->]]] _]].
  - split; [auto|]. split; [auto|]. discriminate.
  - split; [auto|]. split; [auto|]. discriminate.
  - split; [auto|]. split; [auto|]. discriminate.
  - split; [auto|]. split; [|auto]. intros [H|H]; discriminate.
  - split; [auto|]. split; [|discriminate]. intros [H|H]; discriminate.
Qed.

(** X6. One call of [GetMeasurements] is one attempt: it exchanges reports
    with its own handle only, writes the measure command once, then at
    most one read request of six bytes, and never repeats either. *)
Theorem GetMeasurements_single_attempt handle out st :
  exists evs,
    trace (snd (GetMeasurements handle out st)) = trace st ++ evs
    /\ Forall (on_handle handle) evs
    /\ (written_reports evs = [write_request MEASURE_T_RH_CLKSTR]
        \/ written_reports evs = [write_request MEASURE_T_RH_CLKSTR;
                                  read_request 0x06]).
Proof.
  destruct (GetMeasurements_cases handle out st)
    as [code [out' [evs [_ [Ht [Hf Hc]]]]]].
  exists evs. split; [exact Ht|]. split; [exact Hf|].
  destruct Hc as [[_ [_ H]] | [_ H]]; auto.
Qed.

Lemma GetMeasurements_write_refused handle out w tr ack w1 :
  transact handle (write_request MEASURE_T_RH_CLKSTR) w = (ack, w1) ->
  Z.land (byte_of ack 0) 0x80 <> 0 ->
  GetMeasurements handle out (w @ tr)
  = ((-1, out),
     w1 @ (tr ++ [Written handle (write_request MEASURE_T_RH_CLKSTR);
                  ReadBack handle ack;
                  Printed WriteNotAcknowledged; Printed MeasureCommandError])).
Proof.
  intros Hw Hn. unfold GetMeasurements. unfold bind at 1.
  rewrite (WriteI2C_refused _ _ _ _ _ _ Hw Hn).
  change (negb (-1 =? 3)) with true. cbv iota.
  unfold bind, printf, log, ret. cbn [world trace].
  rewrite <- app_assoc. reflexivity.
Qed.

(** X7. A transport failure of the transaction, be it the command or the
    read that the device refuses, makes [GetMeasurements] return -1 with
    its three outputs untouched. *)
Theorem GetMeasurements_ack_failure handle out w tr evs w' :
  ack_failure handle w evs w' ->
  GetMeasurements handle out (w @ tr) = ((-1, out), w' @ (tr ++ evs)).
Proof.
  intros [[ack [Hw [Hn ->]]] | [ack [w1 [answer [Hw [Hack [Hr [Hn ->]]]]]]]].
  - apply GetMeasurements_write_refused; assumption.
  - unfold GetMeasurements. unfold bind at 1.
    rewrite (WriteI2C_acknowledged _ _ _ _ _ _ Hw Hack).
    change (negb (3 =? 3)) with false. cbv iota.
    unfold bind at 1.
    rewrite (ReadI2c_refused _ _ _ _ _ _ Hr Hn).
    apply Z.eqb_neq in Hn. rewrite Hn. unfold ret.
    rewrite <- app_assoc. reflexivity.
Qed.

(** X8. A command that the device acknowledges for fewer (or more) than
    its three bytes is a failure too: [GetMeasurements] prints the error
    and returns -1 without sending the read request, outputs untouched. *)
Theorem GetMeasurements_incomplete_command handle out w tr ack w1 :
  transact handle (write_request MEASURE_T_RH_CLKSTR) w = (ack, w1) ->
  Z.testbit (byte_of ack 0) 7 = false ->
  byte_of ack 0 <> 3 ->
  GetMeasurements handle out (w @ tr)
  = ((-1, out),
     w1 @ (tr ++ [Written handle (write_request MEASURE_T_RH_CLKSTR);
                  ReadBack handle ack; Printed MeasureCommandError])).
Proof.
  intros Hw Hb Hne.
  unfold GetMeasurements. unfold bind at 1.
  rewrite (WriteI2C_accepted handle MEASURE_T_RH_CLKSTR w tr ack w1 Hw Hb).
  apply Z.eqb_neq in Hne. rewrite Hne. cbn [negb].
  unfold bind, printf, log, ret. cbn [world trace app].
  rewrite <- app_assoc. reflexivity.
Qed.

(** X9. On success the stored values are the conversions of the two words
    of the reply, most significant byte first: bytes 1 and 2 give the
    temperature 175 * (256 * b1 + b2) / 65536 - 45 and bytes 4 and 5 the
    humidity 100 * (256 * b4 + b5) / 65536, exactly. *)
Theorem GetMeasurements_values handle out w tr ack answer w2 :
  answered handle w ack answer w2 ->
  CRC.VerifyChecksum (word_span answer 1) (byte_of answer 3) = 0 ->
  CRC.VerifyChecksum (word_span answer 4) (byte_of answer 6) = 0 ->
  let result := GetMeasurements handle out (w @ tr) in
  fst (fst result) = 0
  /\ (float_value (out_temperature (snd (fst result)))
      == 175 * inject_Z (256 * byte_of answer 1 + byte_of answer 2) / 65536 - 45)%Q
  /\ (float_value (out_humidity (snd (fst result)))
      == 100 * inject_Z (256 * byte_of answer 4 + byte_of answer 5) / 65536)%Q.
Proof.
  intros Ha Ht Hh result. subst result.
  rewrite (GetMeasurements_answered _ _ _ _ _ _ _ Ha). cbv zeta.
  rewrite Ht, Hh. cbn [negb Z.eqb].
  destruct (word_of_big_endian answer 1) as [E1 R1].
  destruct (word_of_big_endian answer 4) as [E4 R4].
  destruct (ConvertTemperature_exact _ R1) as [_ VT].
  destruct (ConvertHumidity_facts _ R4) as [_ [VH _]].
  rewrite E1 in VT at 2. rewrite E4 in VH at 2.
  destruct (positive_humidity (ConvertHumidity (word_of answer 4)));
    cbn [fst snd out_temperature out_humidity];
    (split; [reflexivity|]); (split; [exact VT|exact VH]).
Qed.

End MeasureFacts.

Lemma GetMeasurements_ack_failure_witness :
  fst (GetMeasurements 2 stale (bench_state one_dead_bench)) = (-1, stale).
Proof.
  unfold bench_state.
  rewrite (GetMeasurements_ack_failure (platform := bench) 2 stale
             one_dead_bench []
             [Written 2 (write_request MEASURE_T_RH_CLKSTR);
              ReadBack 2 not_acknowledged;
              Printed WriteNotAcknowledged; Printed MeasureCommandError]
             one_dead_bench).
  - reflexivity.
  - left. exists not_acknowledged.
    split; [reflexivity|]. split; [vm_compute; discriminate|reflexivity].
Defined.

Lemma GetMeasurements_incomplete_command_witness :
  fst (GetMeasurements 1 stale
         (bench_state (bench_with 1 [{| ReportID := 0x02;
                                        Bytes := [2; 0; 0; 0; 0; 0; 0] |}])))
  = (-1, stale).
Proof.
  unfold bench_state.
  rewrite (GetMeasurements_incomplete_command (platform := bench) 1 stale
             _ [] {| ReportID := 0x02; Bytes := [2; 0; 0; 0; 0; 0; 0] |}
             (after_reads 1 1 (bench_with 1 [{| ReportID := 0x02;
                                                Bytes := [2; 0; 0; 0; 0; 0; 0] |}]))).
  - reflexivity.
  - reflexivity.
  - reflexivity.
  - vm_compute. discriminate.
Defined.

Lemma GetMeasurements_values_witness :
  Qeq (float_value (out_humidity (snd (fst (GetMeasurements 1 stale
         (bench_state (bench_with 1 [acknowledged; good_reply])))))))
      (100 * inject_Z (256 * 0x80 + 0x00) / 65536)%Q.
Proof.
  unfold bench_state.
  refine (proj2 (proj2 (GetMeasurements_values (platform := bench) 1 stale
             _ [] acknowledged good_reply _
             (bench_answered good_reply eq_refl) _ _))).
  - vm_compute. reflexivity.
  - vm_compute. reflexivity.
Defined.

(** *** UpdateSensorsMeasurements and the loop of main *)

Lemma nth_error_store_at_other {A} (l : list A) :
  forall k j (x : A), j <> k -> nth_error (store_at k x l) j = nth_error l j.
Proof.
  induction l as [|y rest IH]; intros [|k] [|j] x Hne; cbn [store_at nth_error];
    try reflexivity; try congruence.
  apply IH. congruence.
Qed.

Lemma store_at_length {A} (l : list A) :
  forall k (x : A), List.length (store_at k x l) = List.length l.
Proof.
  induction l as [|y rest IH]; intros [|k] x; cbn [store_at List.length];
    try reflexivity.
  rewrite IH. reflexivity.
Qed.

Lemma bound_handles_in (sensors_table : list SHTW1_SENSOR) k sensor :
  nth_error sensors_table k = Some sensor ->
  usb_stick_handle sensor <> 0 ->
  In (usb_stick_handle sensor) (bound_handles sensors_table).
Proof.
  intros Hn Hz. unfold bound_handles. apply filter_In. split.
  - apply in_map. eapply nth_error_In. exact Hn.
  - apply negb_true_iff. apply Z.eqb_neq. exact Hz.
Qed.

Lemma polled_sensor_none (sensors_table : list SHTW1_SENSOR) :
  bound_handles sensors_table = [] ->
  forall n, polled_sensor sensors_table n = None.
Proof.
  intros Hb n. induction n as [|k IH]; cbn [polled_sensor]; [reflexivity|].
  destruct (nth_error sensors_table k) as [sensor|] eqn:E; [|exact IH].
  destruct (Z.eqb_spec (usb_stick_handle sensor) 0) as [Hz|Hz]; cbn [negb];
    [exact IH|].
  pose proof (bound_handles_in _ _ _ E Hz) as Hin. rewrite Hb in Hin.
  destruct Hin.
Qed.

Section PollingFacts.

Context {platform : Platform}.

Local Notation "w @ tr" := {| world := w; trace := tr |} (at level 50).

(** X10. One call of [UpdateSensorsMeasurements] measures one sensor at
    most, whatever the table and whatever the devices answer: the measure
    command goes to no handle, or to the handle of one bound sensor. The
    call changes no handle of the table and not its length. *)
Theorem UpdateSensorsMeasurements_at_most_one sensors_table st :
  let result := UpdateSensorsMeasurements sensors_table st in
  exists evs,
    trace (snd result) = trace st ++ evs
    /\ (measured_handles evs = []
        \/ exists handle, measured_handles evs = [handle]
                          /\ In handle (bound_handles sensors_table))
    /\ map usb_stick_handle (fst (fst result)) = map usb_stick_handle sensors_table
    /\ List.length (fst (fst result)) = List.length sensors_table.
Proof.
  cbv zeta.
  destruct (UpdateSensorsMeasurements_one_handle sensors_table st)
    as [evs [Ht [Hm Hh]]].
  exists evs. split; [exact Ht|]. split; [|split; [exact Hh|]].
  - destruct (polled_sensor sensors_table (List.length sensors_table))
      as [[k sensor]|] eqn:Hp; [right|left; exact Hm].
    exists (usb_stick_handle sensor). split; [exact Hm|].
    destruct (polled_sensor_nth _ _ _ _ Hp) as [Hn Hz].
    exact (bound_handles_in _ _ _ Hn Hz).
  - rewrite <- (length_map usb_stick_handle), Hh. apply length_map.
Qed.

(** X11. With no bound sensor in the table (an empty table included) the
    call does nothing: no report is exchanged, nothing is printed, the
    table is unchanged, and the function reaches its end without a return
    value. *)
Theorem UpdateSensorsMeasurements_none_bound sensors_table st :
  bound_handles sensors_table = [] ->
  UpdateSensorsMeasurements sensors_table st = ((sensors_table, None), st).
Proof.
  intros Hb. unfold UpdateSensorsMeasurements.
  rewrite UpdateSensorsMeasurements_loop_polled.
  rewrite (polled_sensor_none _ Hb). reflexivity.
Qed.

Lemma UpdateSensorsMeasurements_success sensors_table k sensor w tr ack answer w2 :
  polled_sensor sensors_table (List.length sensors_table) = Some (k, sensor) ->
  answered (usb_stick_handle sensor) w ack answer w2 ->
  CRC.VerifyChecksum (word_span answer 1) (byte_of answer 3) = 0 ->
  CRC.VerifyChecksum (word_span answer 4) (byte_of answer 6) = 0 ->
  let T := ConvertTemperature (word_of answer 1) in
  let RH := ConvertHumidity (word_of answer 4) in
  UpdateSensorsMeasurements sensors_table (w @ tr)
  = ((store_at k
        {| stick_serial_number := stick_serial_number sensor;
           usb_stick_handle := usb_stick_handle sensor;
           temperature := T;
           humidity := RH;
           dew_point := match dew_point_spec logf T RH with
                        | Some d => d
                        | None => F32.of_Z 1000
                        end;
           name := name sensor;
           info := info sensor |} sensors_table, Some 0),
     w2 @ (tr ++ measurement_trace (usb_stick_handle sensor) ack answer)).
Proof.
  intros Hp Ha Ht Hh T RH. subst T RH.
  unfold UpdateSensorsMeasurements.
  rewrite UpdateSensorsMeasurements_loop_polled, Hp.
  rewrite (measure_into_table_answered _ _ _ _ _ _ _ _ Ha). cbv zeta.
  rewrite Ht, Hh. cbn [negb Z.eqb fst snd].
  rewrite (dew_point_refines (ConvertTemperature (word_of answer 1))
             (word_of answer 4) (F32.of_Z 1000)).
  reflexivity.
Qed.

(** X12. When the polled sensor answers with two valid checksums, the call
    returns 0 and stores the sample in the entry of that sensor alone:
    temperature, humidity, and as dew point the value of the specification
    or, when the humidity is not positive, 1000. The serial number, handle,
    name and info of the entry and all other entries are unchanged. *)
Theorem UpdateSensorsMeasurements_stores_sample
    sensors_table k sensor w tr ack answer w2 :
  polled_sensor sensors_table (List.length sensors_table) = Some (k, sensor) ->
  answered (usb_stick_handle sensor) w ack answer w2 ->
  CRC.VerifyChecksum (word_span answer 1) (byte_of answer 3) = 0 ->
  CRC.VerifyChecksum (word_span answer 4) (byte_of answer 6) = 0 ->
  let T := ConvertTemperature (word_of answer 1) in
  let RH := ConvertHumidity (word_of answer 4) in
  let result := UpdateSensorsMeasurements sensors_table (w @ tr) in
  snd (fst result) = Some 0
  /\ nth_error (fst (fst result)) k
     = Some {| stick_serial_number := stick_serial_number sensor;
               usb_stick_handle := usb_stick_handle sensor;
               temperature := T;
               humidity := RH;
               dew_point := match dew_point_spec logf T RH with
                            | Some d => d
                            | None => F32.of_Z 1000
                            end;
               name := name sensor;
               info := info sensor |}
  /\ (forall j, j <> k ->
        nth_error (fst (fst result)) j = nth_error sensors_table j).
Proof.
  intros Hp Ha Ht Hh T RH result. subst result.
  rewrite (UpdateSensorsMeasurements_success _ _ _ _ _ _ _ _ Hp Ha Ht Hh).
  cbn [fst snd]. split; [reflexivity|]. split.
  - destruct (polled_sensor_nth _ _ _ _ Hp) as [Hn _].
    clear - Hn. revert k Hn.
    induction sensors_table as [|s rest IH]; intros [|k] Hn; cbn in *;
      try discriminate; try reflexivity.
    apply IH. exact Hn.
  - intros j Hj. apply nth_error_store_at_other. exact Hj.
Qed.

End PollingFacts.

Lemma UpdateSensorsMeasurements_none_bound_witness :
  UpdateSensorsMeasurements [new_sensor 6873 "outer"] (bench_state healthy_bench)
  = (([new_sensor 6873 "outer"], None), bench_state healthy_bench).
Proof.
  apply (UpdateSensorsMeasurements_none_bound (platform := bench)).
  reflexivity.
Defined.

Lemma UpdateSensorsMeasurements_stores_sample_witness :
  snd (fst (UpdateSensorsMeasurements two_sensors
              (bench_state (bench_with 2 [acknowledged; zero_humidity_reply]))))
  = Some 0.
Proof.
  unfold bench_state.
  refine (proj1 (UpdateSensorsMeasurements_stores_sample (platform := bench)
             two_sensors 1%nat (sensor_on 2 "outer" 6873)
             (bench_with 2 [acknowledged; zero_humidity_reply]) []
             acknowledged zero_humidity_reply
             (after_reads 2 2 (bench_with 2 [acknowledged; zero_humidity_reply]))
             _ _ _ _)).
  - reflexivity.
  - exists (after_reads 1 2 (bench_with 2 [acknowledged; zero_humidity_reply])).
    split; [reflexivity|]. split; [reflexivity|]. split; reflexivity.
  - vm_compute. reflexivity.
  - vm_compute. reflexivity.
Defined.



(** *** LoadConfiguration *)

Lemma skip_to_start_none (lines : list string) :
  Forall (fun line => starts_section line = false) lines ->
  skip_to_start lines = [].
Proof.
  induction 1 as [|line rest Hl _ IH]; cbn [skip_to_start]; [reflexivity|].
  unfold starts_section in Hl. rewrite Hl. exact IH.
Qed.

Lemma skip_to_start_found (header : list string) (start_line : string)
    (rest : list string) :
  Forall (fun line => starts_section line = false) header ->
  starts_section start_line = true ->
  skip_to_start (header ++ start_line :: rest) = rest.
Proof.
  intros Hh Hs. induction Hh as [|line more Hl _ IH]; cbn [skip_to_start app].
  - unfold starts_section in Hs. rewrite Hs. reflexivity.
  - unfold starts_section in Hl. rewrite Hl. exact IH.
Qed.

(** X15. A file without the start phrase, an empty file included, loads
    nothing and is not an error: the function returns 0 with the table
    untouched and only the reading message printed, and the count it hands
    back is whatever the uninitialised [sensors_iterator] held. *)
Theorem LoadConfiguration_without_start (lines : list string)
    (indeterminate_iterator null_minus_line : Z) (table : list SHTW1_SENSOR) :
  Forall (fun line => starts_section line = false) lines ->
  LoadConfiguration (Some lines) indeterminate_iterator null_minus_line table
  = Some {| return_code := 0;
            table_after := table;
            number_of_sensors := uint8 indeterminate_iterator;
            output := [ReadingConfiguration] |}.
Proof.
  intros H. unfold LoadConfiguration.
  rewrite (skip_to_start_none _ H). reflexivity.
Qed.

Lemma LoadConfiguration_without_start_witness :
  LoadConfiguration (Some [text_line "# sticks"; conf_line "outer" "6873"])
                    77 (-1) (empty_table 2)
  = Some {| return_code := 0;
            table_after := empty_table 2;
            number_of_sensors := 77;
            output := [ReadingConfiguration] |}.
Proof.
  apply (LoadConfiguration_without_start
           [text_line "# sticks"; conf_line "outer" "6873"] 77 (-1)).
  repeat constructor.
Defined.

Lemma parse_line_stop (null_minus_line : Z) (st : load_state) :
  parse_line null_minus_line st (text_line BINDING_LIST_STOP)
  = BreakLoop {| loaded_table := loaded_table st;
                 sensors_iterator := sensors_iterator st;
                 lines_iterator := uint8 (lines_iterator st + 1);
                 printed := printed st |}.
Proof. reflexivity. Qed.

Lemma parse_lines_stop (null_minus_line : Z) (body tail : list string) :
  forall st,
  parse_lines null_minus_line st (body ++ text_line BINDING_LIST_STOP :: tail)
  = parse_lines null_minus_line st (body ++ [text_line BINDING_LIST_STOP]).
Proof.
  induction body as [|line rest IH]; intros st; cbn [parse_lines app].
  - rewrite parse_line_stop. reflexivity.
  - destruct (parse_line null_minus_line st line); try reflexivity. apply IH.
Qed.

(** X16. Whatever follows the stop phrase is never read: the lines after
    the first [end.] of the sensors section, well formed or not, change
    neither the table, nor the count, nor what is printed. *)
Theorem LoadConfiguration_stops_at_end (header body tail : list string)
    (start_line : string) (indeterminate_iterator null_minus_line : Z)
    (table : list SHTW1_SENSOR) :
  Forall (fun line => starts_section line = false) header ->
  starts_section start_line = true ->
  LoadConfiguration
    (Some (header ++ start_line :: body ++ text_line BINDING_LIST_STOP :: tail))
    indeterminate_iterator null_minus_line table
  = LoadConfiguration
      (Some (header ++ start_line :: body ++ [text_line BINDING_LIST_STOP]))
      indeterminate_iterator null_minus_line table.
Proof.
  intros Hh Hs. unfold LoadConfiguration.
  rewrite !(skip_to_start_found _ _ _ Hh Hs).
  rewrite parse_lines_stop. reflexivity.
Qed.

Lemma LoadConfiguration_stops_at_end_witness :
  LoadConfiguration
    (Some ([text_line "# sticks"] ++ text_line "sensors:"
           :: [conf_line "outer" "6873"] ++ text_line "end."
           :: [conf_line "inner" "6181"]))
    0 (-1) (empty_table 3)
  = LoadConfiguration
      (Some ([text_line "# sticks"] ++ text_line "sensors:"
             :: [conf_line "outer" "6873"] ++ [text_line "end."]))
      0 (-1) (empty_table 3).
Proof.
  apply (LoadConfiguration_stops_at_end [text_line "# sticks"]
           [conf_line "outer" "6873"] [conf_line "inner" "6181"]
           (text_line "sensors:")).
  - repeat constructor.
  - reflexivity.
Defined.

Lemma parse_lines_length_errors (null_minus_line : Z) (body : list string) :
  Forall (fun line => (String.length line < 4 \/ 40 < String.length line)%nat)
         body ->
  forall st,
  parse_lines null_minus_line st body
  = Some {| loaded_table := loaded_table st;
            sensors_iterator := sensors_iterator st;
            lines_iterator := fold_left (fun n _ => uint8 (n + 1)) body
                                        (lines_iterator st);
            printed := printed st ++ length_errors (lines_iterator st) body |}.
Proof.
  induction 1 as [|line rest Hl _ IH]; intros st;
    cbn [parse_lines length_errors fold_left].
  - rewrite app_nil_r. destruct st; reflexivity.
  - unfold parse_line, MIN_CONF_LINE_LENGTH, MAX_CONF_LINE_LENGTH.
    destruct (Z.ltb_spec (Z.of_nat (String.length line)) 4) as [Hs|Hs].
    + rewrite IH. unfold print. cbn [loaded_table sensors_iterator
                                     lines_iterator printed].
      rewrite <- app_assoc. reflexivity.
    + destruct (Z.gtb_spec (Z.of_nat (String.length line)) 40) as [Hg|Hg];
        [|lia].
      rewrite IH. unfold print. cbn [loaded_table sensors_iterator
                                     lines_iterator printed].
      rewrite <- app_assoc. reflexivity.
Qed.

(** X17. Lines of the sensors section that are shorter than 4 or longer
    than 40 characters are each reported, with their number in the section
    and their length, and skipped: a section made of such lines leaves the
    table and the count as they were and the function returns 0. *)
Theorem LoadConfiguration_reports_bad_lengths (header body : list string)
    (start_line : string) (indeterminate_iterator null_minus_line : Z)
    (table : list SHTW1_SENSOR) :
  Forall (fun line => starts_section line = false) header ->
  starts_section start_line = true ->
  Forall (fun line => (String.length line < 4 \/ 40 < String.length line)%nat)
         body ->
  LoadConfiguration (Some (header ++ start_line :: body))
                    indeterminate_iterator null_minus_line table
  = Some {| return_code := 0;
            table_after := table;
            number_of_sensors := uint8 indeterminate_iterator;
            output := ReadingConfiguration :: length_errors 0 body |}.
Proof.
  intros Hh Hs Hb. unfold LoadConfiguration.
  rewrite (skip_to_start_found _ _ _ Hh Hs).
  rewrite (parse_lines_length_errors _ _ Hb). reflexivity.
Qed.

Lemma LoadConfiguration_reports_bad_lengths_witness :
  LoadConfiguration
    (Some ([] ++ text_line "sensors:"
           :: [text_line "ab";
               text_line "a line of more than forty characters in all"]))
    0 (-1) (empty_table 1)
  = Some {| return_code := 0;
            table_after := empty_table 1;
            number_of_sensors := 0;
            output := [ReadingConfiguration; TooFewCharacters 1 3;
                       TooManyCharacters 2 44] |}.
Proof.
  apply (LoadConfiguration_reports_bad_lengths []
           [text_line "ab";
            text_line "a line of more than forty characters in all"]
           (text_line "sensors:") 0 (-1) (empty_table 1)).
  - constructor.
  - reflexivity.
  - repeat constructor; cbn; lia.
Defined.

Lemma parse_line_defined (null_minus_line : Z) (st : load_state) (line : string) :
  (String.length line <= 32 \/ 40 < String.length line)%nat ->
  0 <= sensors_iterator st ->
  sensors_iterator st < Z.of_nat (List.length (loaded_table st)) ->
  Z.of_nat (List.length (loaded_table st)) <= 255 ->
  exists st',
    (parse_line null_minus_line st line = NextLine st'
     \/ parse_line null_minus_line st line = BreakLoop st')
    /\ List.length (loaded_table st') = List.length (loaded_table st)
    /\ sensors_iterator st <= sensors_iterator st' <= sensors_iterator st + 1.
Proof.
  intros Hlen H0 Hk Hcap.
  unfold parse_line, MIN_CONF_LINE_LENGTH, MAX_CONF_LINE_LENGTH,
    MAX_SENSOR_NAME_LENGTH, print.
  cbn [loaded_table sensors_iterator lines_iterator printed].
  set (read := Z.of_nat (String.length line)).
  assert (Hread : read <= 32 \/ 40 < read) by (unfold read; lia).
  destruct (Z.ltb_spec read 4);
    [eexists; split; [left; reflexivity|cbn; split; [reflexivity|lia]]|].
  destruct (Z.gtb_spec read 40);
    [eexists; split; [left; reflexivity|cbn; split; [reflexivity|lia]]|].
  destruct (strcmp_eq _ BINDING_LIST_STOP);
    [eexists; split; [right; reflexivity|cbn; split; [reflexivity|lia]]|].
  set (separator_index := match strchr _ SEPARATION_CHAR with
                          | Some k => Z.of_nat k
                          | None => null_minus_line
                          end).
  destruct (Z.geb_spec separator_index (read - 1 - 1));
    [eexists; split; [left; reflexivity|cbn; split; [reflexivity|lia]]|].
  destruct (Z.ltb_spec separator_index 0);
    [eexists; split; [left; reflexivity|cbn; split; [reflexivity|lia]]|].
  destruct (Z.eqb_spec separator_index 0);
    [eexists; split; [left; reflexivity|cbn; split; [reflexivity|lia]]|].
  destruct (Z.leb_spec 30 (read - 1 - separator_index - 1)); [lia|].
  destruct (negb (strtol _ =? 0));
    [|eexists; split; [left; reflexivity|cbn; split; [reflexivity|lia]]].
  destruct (Z.leb_spec 30 separator_index); [lia|].
  destruct (Z.leb_spec 0 (sensors_iterator st)); [|lia].
  destruct (Z.ltb_spec (sensors_iterator st)
              (Z.of_nat (List.length (loaded_table st)))); [|lia].
  cbn [andb]. eexists. split; [left; reflexivity|].
  cbn [loaded_table sensors_iterator]. rewrite store_at_length.
  rewrite uint8_small by lia. split; [reflexivity|lia].
Qed.

Lemma skip_to_start_suffix (lines : list string) :
  exists dropped, lines = dropped ++ skip_to_start lines.
Proof.
  induction lines as [|line rest [dropped IH]]; cbn [skip_to_start].
  - exists []. reflexivity.
  - destruct (strcmp_eq _ SENSOR_BINDING_LIST_START).
    + exists [line]. reflexivity.
    + exists (line :: dropped). cbn [app]. rewrite <- IH. reflexivity.
Qed.

Lemma parse_lines_defined (null_minus_line : Z) (lines : list string) :
  Forall (fun line => (String.length line <= 32 \/ 40 < String.length line)%nat)
         lines ->
  forall st,
  0 <= sensors_iterator st ->
  sensors_iterator st + Z.of_nat (List.length lines)
  <= Z.of_nat (List.length (loaded_table st)) ->
  Z.of_nat (List.length (loaded_table st)) <= 255 ->
  exists st',
    parse_lines null_minus_line st lines = Some st'
    /\ List.length (loaded_table st') = List.length (loaded_table st)
    /\ sensors_iterator st <= sensors_iterator st'
       <= sensors_iterator st + Z.of_nat (List.length lines).
Proof.
  induction 1 as [|line rest Hl _ IH]; intros st H0 Hroom Hcap;
    cbn [parse_lines List.length] in *.
  - exists st. split; [reflexivity|]. split; [reflexivity|lia].
  - destruct (parse_line_defined null_minus_line st line Hl H0
                ltac:(lia) Hcap) as [st1 [[E|E] [Hlen Hit]]]; rewrite E.
    + destruct (IH st1 ltac:(lia) ltac:(rewrite Hlen; lia)
                  ltac:(rewrite Hlen; lia)) as [st' [E' [Hlen' Hit']]].
      exists st'. split; [exact E'|]. split; [congruence|lia].
    + exists st1. split; [reflexivity|]. split; [exact Hlen|lia].
Qed.

(** X18. Loading is never fatal for lines of ordinary length: when no line
    has between 33 and 40 characters and the table has room for one entry
    per line (and at most 255 entries), [LoadConfiguration] runs without
    any out-of-bounds write and returns 0; the table keeps its length and
    the count grows by at most the number of lines. *)
Theorem LoadConfiguration_never_fatal (lines : list string)
    (indeterminate_iterator null_minus_line : Z) (table : list SHTW1_SENSOR) :
  Forall (fun line => (String.length line <= 32 \/ 40 < String.length line)%nat)
         lines ->
  uint8 indeterminate_iterator + Z.of_nat (List.length lines)
  <= Z.of_nat (List.length table) ->
  Z.of_nat (List.length table) <= 255 ->
  exists result,
    LoadConfiguration (Some lines) indeterminate_iterator null_minus_line table
    = Some result
    /\ return_code result = 0
    /\ List.length (table_after result) = List.length table
    /\ uint8 indeterminate_iterator <= number_of_sensors result
       <= uint8 indeterminate_iterator + Z.of_nat (List.length lines).
Proof.
  intros Hl Hroom Hcap. unfold LoadConfiguration.
  destruct (skip_to_start_suffix lines) as [dropped Hs].
  assert (Hl' : Forall (fun line => (String.length line <= 32
                                     \/ 40 < String.length line)%nat)
                       (skip_to_start lines)).
  { rewrite Hs in Hl. apply Forall_app in Hl. exact (proj2 Hl). }
  assert (Hn : (List.length (skip_to_start lines) <= List.length lines)%nat).
  { rewrite Hs at 2. rewrite length_app. lia. }
  pose proof (uint8_range indeterminate_iterator) as Hu.
  destruct (parse_lines_defined null_minus_line _ Hl'
              {| loaded_table := table;
                 sensors_iterator := uint8 indeterminate_iterator;
                 lines_iterator := 0;
                 printed := [ReadingConfiguration] |})
    as [st' [E [Hlen Hit]]]; cbn [sensors_iterator loaded_table] in *; try lia.
  rewrite E. eexists. split; [reflexivity|].
  cbn [return_code table_after number_of_sensors].
  split; [reflexivity|]. split; [exact Hlen|lia].
Qed.

Lemma LoadConfiguration_never_fatal_witness :
  exists result,
    LoadConfiguration (Some sample_configuration) 0 (-1) (empty_table 6)
    = Some result
    /\ return_code result = 0.
Proof.
  destruct (LoadConfiguration_never_fatal sample_configuration 0 (-1)
              (empty_table 6)) as [result [E [Hc _]]].
  - repeat constructor; cbn; lia.
  - cbn. lia.
  - cbn. lia.
  - exists result. split; assumption.
Defined.

(** *** Well-formed lines *)

Module Strings.

Lemma app_assoc (a b c : string) : ((a ++ b) ++ c = a ++ (b ++ c))%string.
Proof. induction a as [|x a IH]; cbn; [reflexivity|]. rewrite IH. reflexivity. Qed.

Lemma length_app (a b : string) :
  String.length (a ++ b) = (String.length a + String.length b)%nat.
Proof. induction a as [|x a IH]; cbn; [reflexivity|]. rewrite IH. reflexivity. Qed.






Lemma c_str_clean (a : string) : all_chars not_nul a = true -> c_str a = a.
Proof.
  induction a as [|x a IH]; cbn; [reflexivity|].
  intros H. apply andb_true_iff in H. destruct H as [Hx Ha].
  unfold not_nul in Hx. apply negb_true_iff in Hx. rewrite Hx, (IH Ha).
  reflexivity.
Qed.

Lemma app_nil_r (a : string) : (a ++ EmptyString)%string = a.
Proof. induction a as [|x a IH]; cbn; [reflexivity|]. rewrite IH. reflexivity. Qed.





End Strings.

(** *** The decimal numeral and strtol *)

Module Decimal.









End Decimal.

Lemma uint32_small (z : Z) : 0 <= z < 2 ^ 32 -> uint32 z = z.
Proof.
  intros H. unfold uint32. change 0xFFFFFFFF with (Z.ones 32).
  rewrite Z.land_ones by lia. apply Z.mod_small. exact H.
Qed.









(** *** CheckSensorsPresence *)

Lemma firstn_snoc {A} (l : list A) :
  forall n x, nth_error l n = Some x -> firstn (S n) l = firstn n l ++ [x].
Proof.
  induction l as [|y rest IH]; intros [|n] x H; cbn in *; try discriminate.
  - injection H as ->. reflexivity.
  - rewrite (IH n x H). reflexivity.
Qed.

Lemma CheckSensorsPresence_loop_count (sensors_table : list SHTW1_SENSOR) :
  forall n missing,
  (n <= List.length sensors_table)%nat ->
  0 <= missing ->
  missing + Z.of_nat n <= 255 ->
  CheckSensorsPresence_loop sensors_table n missing
  = (missing + Z.of_nat (List.length (unbound (firstn n sensors_table))),
     map not_found_notice (unbound (firstn n sensors_table))).
Proof.
  induction n as [|k IH]; intros missing Hn H0 Hm;
    cbn [CheckSensorsPresence_loop].
  - cbn. rewrite Z.add_0_r. reflexivity.
  - destruct (nth_error sensors_table k) as [sensor|] eqn:E.
    + rewrite (firstn_snoc _ _ _ E). unfold unbound.
      rewrite rev_app_distr. cbn [rev app filter].
      destruct (usb_stick_handle sensor =? 0).
      * rewrite IH by (try rewrite uint8_small; lia).
        rewrite uint8_small by lia. cbn [List.length map]. unfold unbound.
        f_equal. lia.
      * apply IH; lia.
    + apply nth_error_None in E. lia.
Qed.

(** X21. [CheckSensorsPresence] counts the sensors without a handle: for a
    table of at most 255 sensors it returns minus their number, hence 0
    exactly when every sensor is bound, and prints one line with name and
    serial number for each of them, the last of the table first. *)
Theorem CheckSensorsPresence_counts_unbound (sensors_table : list SHTW1_SENSOR) :
  (List.length sensors_table <= 255)%nat ->
  CheckSensorsPresence sensors_table
  = (- Z.of_nat (List.length (unbound sensors_table)),
     map not_found_notice (unbound sensors_table))
  /\ (fst (CheckSensorsPresence sensors_table) = 0
      <-> Forall (fun s => usb_stick_handle s <> 0) sensors_table).
Proof.
  intros Hlen.
  assert (E : CheckSensorsPresence sensors_table
              = (- Z.of_nat (List.length (unbound sensors_table)),
                 map not_found_notice (unbound sensors_table))).
  { unfold CheckSensorsPresence.
    rewrite CheckSensorsPresence_loop_count by lia.
    rewrite firstn_all. cbn [Z.add].
    destruct (Z.eqb_spec (Z.of_nat (List.length (unbound sensors_table))) 0)
      as [Hz|Hz]; cbn [negb]; [rewrite Hz|]; reflexivity. }
  split; [exact E|]. rewrite E. cbn [fst]. unfold unbound. split.
  - intros H. assert (Hnil : filter (fun s => usb_stick_handle s =? 0)
                               (rev sensors_table) = []).
    { destruct (filter _ _); [reflexivity|cbn in H; lia]. }
    apply Forall_forall. intros s Hin Hz.
    assert (Hf : In s (filter (fun s => usb_stick_handle s =? 0)
                              (rev sensors_table))).
    { apply filter_In. split; [apply in_rev in Hin; exact Hin
                               |apply Z.eqb_eq; exact Hz]. }
    rewrite Hnil in Hf. destruct Hf.
  - intros H. rewrite Forall_forall in H.
    assert (Hnil : filter (fun s => usb_stick_handle s =? 0)
                          (rev sensors_table) = []).
    { destruct (filter (fun s => usb_stick_handle s =? 0) (rev sensors_table))
        as [|s l] eqn:Ef; [reflexivity|].
      assert (Hin : In s (filter (fun s => usb_stick_handle s =? 0)
                                 (rev sensors_table)))
        by (rewrite Ef; left; reflexivity).
      apply filter_In in Hin. destruct Hin as [Hin Hz].
      apply Z.eqb_eq in Hz. apply in_rev in Hin.
      exfalso. exact (H s Hin Hz). }
    rewrite Hnil. reflexivity.
Qed.

Lemma CheckSensorsPresence_counts_unbound_witness :
  fst (CheckSensorsPresence (two_sensors ++ [new_sensor 5 "left"])) = -1.
Proof.
  rewrite (proj1 (CheckSensorsPresence_counts_unbound
                    (two_sensors ++ [new_sensor 5 "left"]) ltac:(cbn; lia))).
  reflexivity.
Defined.

(** *** GetSensorId *)

Lemma product_code (report : IOWKIT_SPECIAL_REPORT) :
  int8 (Z.land (word_of report 1) 0x3F) = Z.land (byte_of report 2) 0x3F
  /\ 0 <= Z.land (byte_of report 2) 0x3F <= 63.
Proof.
  destruct (word_of_big_endian report 1) as [E _]. rewrite E.
  pose proof (byte_of_range report 1) as H1.
  pose proof (byte_of_range report 2) as H2.
  change 0x3F with (Z.ones 6). rewrite !Z.land_ones by lia.
  change (2 ^ 6) with 64.
  replace (256 * byte_of report 1 + byte_of report 2)
    with (byte_of report 2 + (4 * byte_of report 1) * 64) by lia.
  rewrite Z.mod_add by lia.
  pose proof (Z.mod_pos_bound (byte_of report 2) 64 ltac:(lia)) as Hm.
  change (Z.ones 6) with 63.
  split; [|lia].
  unfold int8. rewrite uint8_small by lia.
  destruct (Z.ltb_spec (byte_of report 2 mod 64) 128); [reflexivity|lia].
Qed.

Section StartUpFacts.

Context {platform : Platform} {serials : SerialNumbers}.

Local Notation "w @ tr" := {| world := w; trace := tr |} (at level 50).

Lemma GetSensorId_identified handle w tr ack answer w2 :
  identified handle w ack answer w2 ->
  GetSensorId handle (w @ tr)
  = (if negb (CRC.VerifyChecksum (word_span answer 1) (byte_of answer 3) =? 0)
     then (-1, [ChecksumErrorOnId])
     else (int8 (Z.land (word_of answer 1) 0x3F), []),
     w2 @ (tr ++ [Written handle (write_request READ_ID); ReadBack handle ack;
                  Written handle (read_request 0x03); ReadBack handle answer])).
Proof.
  intros [w1 [Hw [Hack [Hr Hans]]]].
  unfold GetSensorId. unfold bind at 1.
  rewrite (WriteI2C_acknowledged _ _ _ _ _ _ Hw Hack).
  change (3 =? 3) with true. cbv iota.
  unfold bind at 1.
  rewrite (ReadI2c_acknowledged _ _ _ _ _ _ Hr Hans).
  rewrite Hans. change (0 =? 0) with true. cbv iota.
  rewrite <- app_assoc. cbn [app].
  destruct (negb (CRC.VerifyChecksum (word_span answer 1)
                                     (byte_of answer 3) =? 0)); reflexivity.
Qed.

(** X22. When the READ_ID exchange gets its three bytes, [GetSensorId]
    returns the product code, the low six bits of the second identity byte
    (a number from 0 to 63; the first byte plays no part), if the checksum
    of the two bytes verifies, and -1 with a printed checksum error if it
    does not. *)
Theorem GetSensorId_product_code handle w tr ack answer w2 :
  identified handle w ack answer w2 ->
  let tr' := tr ++ [Written handle (write_request READ_ID); ReadBack handle ack;
                    Written handle (read_request 0x03); ReadBack handle answer] in
  (CRC.VerifyChecksum (word_span answer 1) (byte_of answer 3) = 0 ->
     GetSensorId handle (w @ tr)
     = ((Z.land (byte_of answer 2) 0x3F, []), w2 @ tr')
     /\ 0 <= Z.land (byte_of answer 2) 0x3F <= 63)
  /\ (CRC.VerifyChecksum (word_span answer 1) (byte_of answer 3) <> 0 ->
        GetSensorId handle (w @ tr) = ((-1, [ChecksumErrorOnId]), w2 @ tr')).
Proof.
  intros Hid tr'. subst tr'.
  pose proof (GetSensorId_identified handle w tr ack answer w2 Hid) as Hrun.
  destruct (product_code answer) as [Hp Hrange].
  split; intros Hc.
  - rewrite Hrun, Hc. cbn [negb Z.eqb]. rewrite Hp. split; [reflexivity|exact Hrange].
  - rewrite Hrun. apply Z.eqb_neq in Hc. rewrite Hc. reflexivity.
Qed.

(** X23. Whatever the device does, [GetSensorId] returns -1 or a product
    code from 0 to 63, after one attempt on its own handle: the READ_ID
    command written once and at most one read request of three bytes. *)
Theorem GetSensorId_single_attempt handle st :
  let result := GetSensorId handle st in
  (fst (fst result) = -1 \/ 0 <= fst (fst result) <= 63)
  /\ exists evs,
       trace (snd result) = trace st ++ evs
       /\ Forall (on_handle handle) evs
       /\ (written_reports evs = [write_request READ_ID]
           \/ written_reports evs = [write_request READ_ID; read_request 0x03]).
Proof.
  cbv zeta. destruct st as [w tr].
  unfold GetSensorId, WriteI2C, ReadI2c, bind, kit_write, kit_read,
    printf, log, ret.
  cbn [world trace].
  destruct (IowKitRead handle (IowKitWrite handle (write_request READ_ID) w))
    as [ack w1].
  destruct (negb (Z.land (byte_of ack 0) 128 =? 0));
    cbn [negb Z.eqb world trace fst snd].
  - split; [left; reflexivity|]. eexists.
    split; [rewrite <- !app_assoc; reflexivity|].
    split; [repeat constructor|left; reflexivity].
  - destruct (int8 (byte_of ack 0) =? 3); cbn [world trace fst snd].
    + destruct (IowKitRead handle (IowKitWrite handle (read_request 3) w1))
        as [answer w2].
      destruct (negb (Z.land (byte_of answer 0) 128 =? 0)) eqn:E;
        cbn [world trace fst snd].
      * apply negb_true_iff in E. rewrite E. cbn [world trace fst snd].
        split; [left; reflexivity|]. eexists.
        split; [rewrite <- !app_assoc; reflexivity|].
        split; [repeat constructor|right; reflexivity].
      * apply negb_false_iff in E. rewrite E.
        destruct (negb (CRC.VerifyChecksum (word_span answer 1)
                                           (byte_of answer 3) =? 0));
          cbn [world trace fst snd].
        { split; [left; reflexivity|]. eexists.
          split; [rewrite <- !app_assoc; reflexivity|].
          split; [repeat constructor|right; reflexivity]. }
        destruct (product_code answer) as [Hp Hrange].
        split; [right; rewrite Hp; exact Hrange|]. eexists.
        split; [rewrite <- !app_assoc; reflexivity|].
        split; [repeat constructor|right; reflexivity].
    + split; [left; reflexivity|]. eexists.
      split; [rewrite <- !app_assoc; reflexivity|].
      split; [repeat constructor|left; reflexivity].
Qed.

End StartUpFacts.

Lemma GetSensorId_product_code_witness :
  fst (GetSensorId 1
         (bench_state (bench_with 1
            [acknowledged;
             {| ReportID := 0x03;
                Bytes := [3; 0x08; 0x47; CRC.compute [0x08; 0x47]; 0; 0; 0] |}])))
  = (7, []).
Proof.
  unfold bench_state.
  destruct (GetSensorId_product_code (platform := bench) 1
              (bench_with 1
                 [acknowledged;
                  {| ReportID := 0x03;
                     Bytes := [3; 0x08; 0x47; CRC.compute [0x08; 0x47]; 0; 0; 0] |}])
              [] acknowledged
              {| ReportID := 0x03;
                 Bytes := [3; 0x08; 0x47; CRC.compute [0x08; 0x47]; 0; 0; 0] |}
              (after_reads 2 1
                 (bench_with 1
                    [acknowledged;
                     {| ReportID := 0x03;
                        Bytes := [3; 0x08; 0x47; CRC.compute [0x08; 0x47];
                                  0; 0; 0] |}])))
    as [Hok _].
  - exists (after_reads 1 1
              (bench_with 1
                 [acknowledged;
                  {| ReportID := 0x03;
                     Bytes := [3; 0x08; 0x47; CRC.compute [0x08; 0x47];
                               0; 0; 0] |}])).
    split; [reflexivity|]. split; [reflexivity|]. split; reflexivity.
  - rewrite (proj1 (Hok ltac:(vm_compute; reflexivity))). reflexivity.
Defined.

(** *** GetUsbStickSerialNumber *)

Module Hex.

Lemma hex_char_facts (d : Z) :
  0 <= d < 16 ->
  hex_digit_of (char_of_unit (hex_char d)) = Some d
  /\ isspace (char_of_unit (hex_char d)) = false
  /\ char_of_unit (hex_char d) <> "-"%char
  /\ char_of_unit (hex_char d) <> "+"%char
  /\ Ascii.eqb (char_of_unit (hex_char d)) "x" = false
  /\ Ascii.eqb (char_of_unit (hex_char d)) "X" = false.
Proof.
  intros H.
  assert (C : d = 0 \/ d = 1 \/ d = 2 \/ d = 3 \/ d = 4 \/ d = 5 \/ d = 6
              \/ d = 7 \/ d = 8 \/ d = 9 \/ d = 10 \/ d = 11 \/ d = 12
              \/ d = 13 \/ d = 14 \/ d = 15) by lia.
  repeat (destruct C as [->|C]); try subst d;
    (split; [reflexivity|split; [reflexivity|split; [discriminate|
     split; [discriminate|split; reflexivity]]]]).
Qed.

Lemma hex_value_units (digits : nat) :
  forall n acc a,
  0 <= n ->
  hex_value (string_of_units (hex_units digits n acc)) a
  = hex_value (string_of_units acc)
              (16 ^ Z.of_nat digits * a + n mod 16 ^ Z.of_nat digits).
Proof.
  induction digits as [|k IH]; intros n acc a Hn.
  - cbn [hex_units]. change (16 ^ Z.of_nat 0) with 1.
    rewrite Z.mod_1_r. f_equal. lia.
  - cbn [hex_units]. rewrite IH by (apply Z.div_pos; lia).
    cbn [string_of_units hex_value].
    pose proof (Z.mod_pos_bound n 16 ltac:(lia)) as Hm.
    destruct (hex_char_facts (n mod 16) Hm) as [Hd _]. rewrite Hd.
    f_equal. rewrite Nat2Z.inj_succ, Z.pow_succ_r by lia.
    rewrite (Z.rem_mul_r n 16 (16 ^ Z.of_nat k)) by lia. lia.
Qed.

Lemma strtol_hex_plain (c1 c2 : ascii) (rest : string) :
  isspace c1 = false -> c1 <> "-"%char -> c1 <> "+"%char ->
  Ascii.eqb c2 "x" = false -> Ascii.eqb c2 "X" = false ->
  strtol_hex (String c1 (String c2 rest))
  = Z.min LONG_MAX (hex_value (String c1 (String c2 rest)) 0).
Proof.
  intros Hs Hm Hp Hx HX. unfold strtol_hex. cbn [skip_spaces]. rewrite Hs.
  assert (Hpre : skip_hex_prefix (String c1 (String c2 rest))
                 = String c1 (String c2 rest)).
  { unfold skip_hex_prefix.
    destruct c1 as [b0 b1 b2 b3 b4 b5 b6 b7].
    destruct b0, b1, b2, b3, b4, b5, b6, b7; try reflexivity.
    destruct rest; [reflexivity|]. rewrite Hx, HX. reflexivity. }
  destruct c1 as [b0 b1 b2 b3 b4 b5 b6 b7].
  destruct b0, b1, b2, b3, b4, b5, b6, b7;
    try (rewrite Hpre; reflexivity);
    exfalso; first [apply Hm; reflexivity|apply Hp; reflexivity].
Qed.

End Hex.

(** X24. [GetUsbStickSerialNumber] reads the serial number back from the
    string the library hands out: for a stick whose serial number [n]
    (below 2^32) is written as eight hexadecimal digits, the function
    returns [n]. *)
Theorem GetUsbStickSerialNumber_round_trip {serials : SerialNumbers}
    (handle : IOWKIT_HANDLE) (n : Z) :
  0 <= n < 2 ^ 32 ->
  IowKitGetSerialNumber handle = serial_units n ->
  GetUsbStickSerialNumber handle = n.
Proof.
  intros Hn E. unfold GetUsbStickSerialNumber. rewrite E.
  assert (Hv : hex_value (string_of_units (serial_units n)) 0 = n).
  { unfold serial_units. rewrite Hex.hex_value_units by lia.
    cbn [string_of_units hex_value]. change (hex_digit_of (char_of_unit 0)) with (@None Z).
    cbv iota. rewrite Z.mul_0_r, Z.add_0_l.
    apply Z.mod_small. change (16 ^ Z.of_nat 8) with (2 ^ 32). exact Hn. }
  unfold serial_units in *. cbn [hex_units] in *.
  cbn [app firstn string_of_units] in *.
  pose proof (Z.mod_pos_bound (n / 16 / 16 / 16 / 16 / 16 / 16 / 16) 16
                ltac:(lia)) as H7.
  pose proof (Z.mod_pos_bound (n / 16 / 16 / 16 / 16 / 16 / 16) 16
                ltac:(lia)) as H6.
  destruct (Hex.hex_char_facts _ H7) as [_ [Hs [Hm [Hp _]]]].
  destruct (Hex.hex_char_facts _ H6) as [_ [_ [_ [_ [Hx HX]]]]].
  rewrite (Hex.strtol_hex_plain _ _ _ Hs Hm Hp Hx HX), Hv.
  unfold LONG_MAX. rewrite Z.min_r by lia. apply uint32_small. exact Hn.
Qed.

Lemma GetUsbStickSerialNumber_round_trip_witness :
  GetUsbStickSerialNumber (serials := bench_serials) 2 = 6873.
Proof.
  apply (GetUsbStickSerialNumber_round_trip (serials := bench_serials) 2 6873).
  - lia.
  - reflexivity.
Defined.

(** *** InitializeSticksAndSensors *)

Lemma Forall2_trans {A} (R : A -> A -> Prop) :
  (forall a b c, R a b -> R b c -> R a c) ->
  forall x y z, Forall2 R x y -> Forall2 R y z -> Forall2 R x z.
Proof.
  intros HR x y z Hxy. revert z.
  induction Hxy as [|a b x y Hab _ IH]; intros z Hyz; inversion Hyz; subst.
  - constructor.
  - constructor; [eapply HR; eassumption|apply IH; assumption].
Qed.

Lemma Forall2_refl {A} (R : A -> A -> Prop) :
  (forall a, R a a) -> forall x, Forall2 R x x.
Proof. intros HR x. induction x; constructor; auto. Qed.

Section BindingFacts.

Context {platform : Platform} {serials : SerialNumbers}.

Lemma bound_by_refl handles_table (s : SHTW1_SENSOR) : bound_by handles_table s s.
Proof. unfold bound_by. repeat split; auto. Qed.

Lemma bound_by_trans handles_table (a b c : SHTW1_SENSOR) :
  bound_by handles_table a b -> bound_by handles_table b c ->
  bound_by handles_table a c.
Proof.
  unfold bound_by.
  intros [S1 [N1 [T1 [H1 [D1 B1]]]]] [S2 [N2 [T2 [H2 [D2 B2]]]]].
  repeat split; try congruence.
  destruct B2 as [E|[Hin Hs]].
  - rewrite E. exact B1.
  - right. split; [exact Hin|congruence].
Qed.

Lemma bind_stick_bound_by handles_table handle sensor_id
    (sensors_table : list SHTW1_SENSOR) :
  In handle handles_table ->
  Forall2 (bound_by handles_table) sensors_table
          (fst (bind_stick (GetUsbStickSerialNumber handle) handle sensor_id
                           sensors_table)).
Proof.
  intros Hin. induction sensors_table as [|s rest IH]; cbn [bind_stick].
  - constructor.
  - destruct (Z.eqb_spec (stick_serial_number s)
                         (GetUsbStickSerialNumber handle)) as [E|E].
    + destruct (sensor_id =? 7); [|destruct (sensor_id =? -1)]; cbn [fst];
        (constructor; [|apply Forall2_refl; apply bound_by_refl]);
        unfold bound_by, with_handle_and_info; cbn; repeat split; auto.
    + destruct (bind_stick (GetUsbStickSerialNumber handle) handle sensor_id rest)
        as [rest' notices]. cbn [fst] in *.
      constructor; [apply bound_by_refl|exact IH].
Qed.

(** The table a run of the outer loop ends with is reached from the table
    it starts with by steps of the inner loop, one per stick. *)
Lemma InitializeSticksAndSensors_loop_invariant
    (P : list SHTW1_SENSOR -> Prop) (handles_table : list IOWKIT_HANDLE) :
  (forall t handle sensor_id,
     In handle handles_table -> P t ->
     P (fst (bind_stick (GetUsbStickSerialNumber handle) handle sensor_id t))) ->
  forall n sensors_table st,
  P sensors_table ->
  P (fst (fst (InitializeSticksAndSensors_loop handles_table n sensors_table st))).
Proof.
  intros Hstep. induction n as [|k IH]; intros sensors_table st HP;
    cbn [InitializeSticksAndSensors_loop].
  - exact HP.
  - destruct (nth_error handles_table k) as [handle|] eqn:E; [|apply IH; exact HP].
    unfold bind at 1. destruct (EnableI2c handle st) as [u s1].
    unfold bind at 1. destruct (SendSoftReset handle s1) as [reset s2].
    unfold bind at 1. destruct (GetSensorId handle s2) as [id s3].
    pose proof (Hstep sensors_table handle (fst id)
                  (nth_error_In _ _ E) HP) as HP'.
    destruct (bind_stick (GetUsbStickSerialNumber handle) handle (fst id)
                         sensors_table) as [bound notices].
    cbn [fst] in HP'. unfold bind at 1.
    pose proof (IH bound s3 HP') as HP''.
    destruct (InitializeSticksAndSensors_loop handles_table k bound s3)
      as [r s4]. exact HP''.
Qed.

Lemma InitializeSticksAndSensors_invariant
    (P : list SHTW1_SENSOR -> Prop) (handles_table : list IOWKIT_HANDLE) :
  (forall t handle sensor_id,
     In handle handles_table -> P t ->
     P (fst (bind_stick (GetUsbStickSerialNumber handle) handle sensor_id t))) ->
  forall sensors_table st,
  P sensors_table ->
  P (fst (fst (InitializeSticksAndSensors handles_table sensors_table st))).
Proof.
  intros Hstep sensors_table st HP. unfold InitializeSticksAndSensors, bind.
  pose proof (InitializeSticksAndSensors_loop_invariant P handles_table Hstep
                (List.length handles_table) sensors_table st HP) as H.
  destruct (InitializeSticksAndSensors_loop handles_table
              (List.length handles_table) sensors_table st) as [r s].
  exact H.
Qed.

(** X25. Start-up binds a sensor only to a stick that carries its serial
    number: after [InitializeSticksAndSensors] the table has the same
    entries in the same order, each with its configured serial number,
    name and measurements, and each handle is either the one the entry had
    or the handle of a stick of the table whose serial number is the one
    configured for the entry. *)
Theorem InitializeSticksAndSensors_binds_matching
    (handles_table : list IOWKIT_HANDLE) (sensors_table : list SHTW1_SENSOR) st :
  Forall2 (bound_by handles_table) sensors_table
    (fst (fst (InitializeSticksAndSensors handles_table sensors_table st))).
Proof.
  apply (InitializeSticksAndSensors_invariant
           (fun t => Forall2 (bound_by handles_table) sensors_table t)).
  - intros t handle sensor_id Hin Ht.
    apply (Forall2_trans _ (bound_by_trans handles_table) _ t); [exact Ht|].
    apply bind_stick_bound_by. exact Hin.
  - apply Forall2_refl. apply bound_by_refl.
Qed.

Lemma bind_stick_other_serial serial handle sensor_id
    (sensors_table : list SHTW1_SENSOR) :
  forall j s,
  nth_error sensors_table j = Some s ->
  stick_serial_number s <> serial ->
  nth_error (fst (bind_stick serial handle sensor_id sensors_table)) j = Some s.
Proof.
  induction sensors_table as [|x rest IH]; intros [|j] s Hn Hs;
    cbn [bind_stick nth_error] in *; try discriminate.
  - injection Hn as ->. apply Z.eqb_neq in Hs. rewrite Hs.
    destruct (bind_stick serial handle sensor_id rest). reflexivity.
  - destruct (stick_serial_number x =? serial).
    + destruct (sensor_id =? 7); [|destruct (sensor_id =? -1)]; exact Hn.
    + pose proof (IH j s Hn Hs) as H.
      destruct (bind_stick serial handle sensor_id rest). exact H.
Qed.

Lemma bind_stick_serials serial handle sensor_id
    (sensors_table : list SHTW1_SENSOR) :
  map stick_serial_number (fst (bind_stick serial handle sensor_id sensors_table))
  = map stick_serial_number sensors_table.
Proof.
  induction sensors_table as [|x rest IH]; cbn [bind_stick]; [reflexivity|].
  destruct (stick_serial_number x =? serial).
  - destruct (sensor_id =? 7); [|destruct (sensor_id =? -1)]; reflexivity.
  - destruct (bind_stick serial handle sensor_id rest). cbn [fst map] in *.
    rewrite IH. reflexivity.
Qed.

Lemma bind_stick_later_duplicate serial handle sensor_id
    (sensors_table : list SHTW1_SENSOR) :
  forall j1 j2 s1 s2,
  (j1 < j2)%nat ->
  nth_error sensors_table j1 = Some s1 ->
  nth_error sensors_table j2 = Some s2 ->
  stick_serial_number s1 = stick_serial_number s2 ->
  nth_error (fst (bind_stick serial handle sensor_id sensors_table)) j2 = Some s2.
Proof.
  induction sensors_table as [|x rest IH]; intros j1 j2 s1 s2 Hlt H1 H2 Hs.
  - destruct j1; discriminate.
  - destruct j2 as [|j2]; [lia|]. cbn [bind_stick].
    destruct (Z.eqb_spec (stick_serial_number x) serial) as [E|E].
    + destruct (sensor_id =? 7); [|destruct (sensor_id =? -1)]; exact H2.
    + destruct j1 as [|j1].
      * cbn in H1. injection H1 as ->.
        pose proof (bind_stick_other_serial serial handle sensor_id rest j2 s2
                      H2 ltac:(congruence)) as H.
        destruct (bind_stick serial handle sensor_id rest). exact H.
      * pose proof (IH j1 j2 s1 s2 ltac:(lia) H1 H2 Hs) as H.
        destruct (bind_stick serial handle sensor_id rest). exact H.
Qed.

(** X26. Of two entries configured with the same serial number only the
    first can be bound: whatever sticks are connected and whatever they
    answer, [InitializeSticksAndSensors] leaves the later entry exactly as
    it was, handle and info text included. *)
Theorem InitializeSticksAndSensors_skips_duplicates
    (handles_table : list IOWKIT_HANDLE) (sensors_table : list SHTW1_SENSOR) st
    (j1 j2 : nat) (s1 s2 : SHTW1_SENSOR) :
  (j1 < j2)%nat ->
  nth_error sensors_table j1 = Some s1 ->
  nth_error sensors_table j2 = Some s2 ->
  stick_serial_number s1 = stick_serial_number s2 ->
  nth_error
    (fst (fst (InitializeSticksAndSensors handles_table sensors_table st))) j2
  = Some s2.
Proof.
  intros Hlt H1 H2 Hs.
  assert (H : map stick_serial_number
                (fst (fst (InitializeSticksAndSensors handles_table
                             sensors_table st)))
              = map stick_serial_number sensors_table
              /\ nth_error
                   (fst (fst (InitializeSticksAndSensors handles_table
                                sensors_table st))) j2 = Some s2).
  { apply (InitializeSticksAndSensors_invariant
             (fun t => map stick_serial_number t
                       = map stick_serial_number sensors_table
                       /\ nth_error t j2 = Some s2)).
    - intros t handle sensor_id _ [Hm Hn]. split.
      + rewrite bind_stick_serials. exact Hm.
      + assert (Hj1 : exists s1', nth_error t j1 = Some s1'
                                  /\ stick_serial_number s1'
                                     = stick_serial_number s1).
        { assert (Hq : nth_error (map stick_serial_number t) j1
                       = Some (stick_serial_number s1))
            by (rewrite Hm; apply map_nth_error; exact H1).
          rewrite nth_error_map in Hq.
          destruct (nth_error t j1) as [s1'|]; [|discriminate].
          exists s1'. split; [reflexivity|]. cbn in Hq. congruence. }
        destruct Hj1 as [s1' [Hn1 Hs1]].
        apply (bind_stick_later_duplicate _ _ _ t j1 j2 s1' s2 Hlt Hn1 Hn).
        congruence.
    - split; [reflexivity|exact H2]. }
  exact (proj2 H).
Qed.

End BindingFacts.

Lemma InitializeSticksAndSensors_skips_duplicates_witness :
  nth_error
    (fst (fst (InitializeSticksAndSensors (serials := bench_serials) [1; 2]
                 [new_sensor 6873 "outer"; new_sensor 6873 "copy"]
                 (bench_state healthy_bench)))) 1
  = Some (new_sensor 6873 "copy").
Proof.
  apply (InitializeSticksAndSensors_skips_duplicates
           (platform := bench) (serials := bench_serials) [1; 2]
           [new_sensor 6873 "outer"; new_sensor 6873 "copy"]
           (bench_state healthy_bench) 0%nat 1%nat
           (new_sensor 6873 "outer") (new_sensor 6873 "copy")).
  - lia.
  - reflexivity.
  - reflexivity.
  - reflexivity.
Defined.

Lemma bind_stick_first_match serial handle (sensors_table : list SHTW1_SENSOR) :
  forall j s,
  nth_error sensors_table j = Some s ->
  stick_serial_number s = serial ->
  (forall i s', (i < j)%nat -> nth_error sensors_table i = Some s' ->
                stick_serial_number s' <> serial) ->
  nth_error (fst (bind_stick serial handle 7 sensors_table)) j
  = Some (with_handle_and_info s handle "OK: USB Stick and Physical Sensor found!").
Proof.
  induction sensors_table as [|x rest IH]; intros [|j] s Hn Hs Hfirst;
    cbn [bind_stick nth_error] in *; try discriminate.
  - injection Hn as ->. apply Z.eqb_eq in Hs. rewrite Hs. reflexivity.
  - pose proof (Hfirst 0%nat x ltac:(lia) eq_refl) as Hx.
    apply Z.eqb_neq in Hx. rewrite Hx.
    pose proof (IH j s Hn Hs) as H.
    destruct (bind_stick serial handle 7 rest). cbn [fst nth_error] in *.
    apply H. intros i s' Hi Hn'. apply (Hfirst (S i) s'); [lia|exact Hn'].
Qed.

Lemma bind_stick_keeps_handles serial handle sensor_id
    (sensors_table : list SHTW1_SENSOR) :
  sensor_id <> 7 ->
  map usb_stick_handle (fst (bind_stick serial handle sensor_id sensors_table))
  = map usb_stick_handle sensors_table.
Proof.
  intros Hid. apply Z.eqb_neq in Hid.
  induction sensors_table as [|x rest IH]; cbn [bind_stick]; [reflexivity|].
  destruct (stick_serial_number x =? serial).
  - rewrite Hid. destruct (sensor_id =? -1); reflexivity.
  - destruct (bind_stick serial handle sensor_id rest). cbn [fst map] in *.
    rewrite IH. reflexivity.
Qed.

Section OneStick.

Context {platform : Platform} {serials : SerialNumbers}.

Local Notation "w @ tr" := {| world := w; trace := tr |} (at level 50).

(** X27. One stick whose sensor identifies itself. After the bus is
    switched on and the soft reset sent (whatever the answer to it), a
    valid READ_ID reply with product code 7 binds the stick to the first
    entry configured with its serial number, whose info text becomes the
    OK message; any other product code leaves every handle of the table as
    it was. *)
Theorem InitializeSticksAndSensors_one_stick
    handle (sensors_table : list SHTW1_SENSOR) w tr reset w2 ack answer w3 :
  transact handle (write_request SOFT_RESET)
           (IowKitWrite handle enable_request w) = (reset, w2) ->
  identified handle w2 ack answer w3 ->
  CRC.VerifyChecksum (word_span answer 1) (byte_of answer 3) = 0 ->
  let sensor_id := Z.land (byte_of answer 2) 0x3F in
  let serial := GetUsbStickSerialNumber handle in
  let after :=
    fst (fst (InitializeSticksAndSensors [handle] sensors_table (w @ tr))) in
  after = fst (bind_stick serial handle sensor_id sensors_table)
  /\ (sensor_id = 7 ->
      forall j s,
        nth_error sensors_table j = Some s ->
        stick_serial_number s = serial ->
        (forall i s', (i < j)%nat -> nth_error sensors_table i = Some s' ->
                      stick_serial_number s' <> serial) ->
        nth_error after j
        = Some (with_handle_and_info s handle
                  "OK: USB Stick and Physical Sensor found!"))
  /\ (sensor_id <> 7 ->
      map usb_stick_handle after = map usb_stick_handle sensors_table).
Proof.
  intros Hreset Hid Hcrc sensor_id serial after.
  assert (E : after = fst (bind_stick serial handle sensor_id sensors_table)).
  { subst after. unfold InitializeSticksAndSensors.
    cbn [List.length InitializeSticksAndSensors_loop nth_error].
    unfold bind at 1. unfold bind at 1.
    unfold EnableI2c, kit_write. cbn [world trace].
    unfold bind at 1. unfold SendSoftReset. unfold bind at 1.
    destruct (WriteI2C_world handle SOFT_RESET _
                (tr ++ [Written handle enable_request]) reset w2 Hreset)
      as [r [tail Hrun]].
    rewrite Hrun.
    assert (Hret : forall (b : bool) s, (if b then ret 0 else ret (-1)) s
                                        = (if b then 0 else -1, s))
      by (intros [|] s; reflexivity).
    rewrite Hret. unfold bind at 1.
    rewrite (GetSensorId_identified handle w2
               ((tr ++ [Written handle enable_request]) ++ tail)
               ack answer w3 Hid).
    rewrite Hcrc. cbn [Z.eqb negb fst snd].
    rewrite (proj1 (product_code answer)).
    fold sensor_id. fold serial.
    destruct (bind_stick serial handle sensor_id sensors_table)
      as [bound notices]. reflexivity. }
  split; [exact E|]. rewrite E. split.
  - intros H7 j s Hn Hs Hfirst. rewrite H7.
    apply bind_stick_first_match; assumption.
  - intros Hne. apply bind_stick_keeps_handles. exact Hne.
Qed.

End OneStick.

Lemma InitializeSticksAndSensors_one_stick_witness :
  map usb_stick_handle
    (fst (fst (InitializeSticksAndSensors (serials := bench_serials) [2]
                 [new_sensor 6181 "inner"; new_sensor 6873 "outer"]
                 (bench_state
                    (bench_with 2
                       [acknowledged; acknowledged;
                        {| ReportID := 0x03;
                           Bytes := [3; 0x08; 0x47; CRC.compute [0x08; 0x47];
                                     0; 0; 0] |}])))))
  = [0; 2].
Proof.
  unfold bench_state.
  destruct (InitializeSticksAndSensors_one_stick
             (platform := bench) (serials := bench_serials) 2
             [new_sensor 6181 "inner"; new_sensor 6873 "outer"]
             (bench_with 2
                [acknowledged; acknowledged;
                 {| ReportID := 0x03;
                    Bytes := [3; 0x08; 0x47; CRC.compute [0x08; 0x47];
                              0; 0; 0] |}])
             [] acknowledged
             (after_reads 1 2
                (bench_with 2
                   [acknowledged; acknowledged;
                    {| ReportID := 0x03;
                       Bytes := [3; 0x08; 0x47; CRC.compute [0x08; 0x47];
                                 0; 0; 0] |}]))
             acknowledged
             {| ReportID := 0x03;
                Bytes := [3; 0x08; 0x47; CRC.compute [0x08; 0x47]; 0; 0; 0] |}
             (after_reads 3 2
                (bench_with 2
                   [acknowledged; acknowledged;
                    {| ReportID := 0x03;
                       Bytes := [3; 0x08; 0x47; CRC.compute [0x08; 0x47];
                                 0; 0; 0] |}]))
             eq_refl) as [E _].
  - exists (after_reads 2 2
              (bench_with 2
                 [acknowledged; acknowledged;
                  {| ReportID := 0x03;
                     Bytes := [3; 0x08; 0x47; CRC.compute [0x08; 0x47];
                               0; 0; 0] |}])).
    split; [reflexivity|]. split; [reflexivity|]. split; reflexivity.
  - vm_compute. reflexivity.
  - etransitivity; [exact (f_equal (map usb_stick_handle) E)|].
    vm_compute. reflexivity.
Defined.

Lemma enabled_handles_app (a b : list event) :
  enabled_handles (a ++ b) = enabled_handles a ++ enabled_handles b.
Proof.
  induction a as [|e rest IH]; [reflexivity|].
  destruct e as [h r|h r|m]; cbn [app enabled_handles]; try exact IH.
  destruct (report_eqb r enable_request); [cbn [app]; rewrite IH|]; auto.
Qed.

Section EnablingFacts.

Context {platform : Platform} {serials : SerialNumbers}.

Lemma SendSoftReset_enables_nothing handle st :
  exists evs,
    trace (snd (SendSoftReset handle st)) = trace st ++ evs
    /\ enabled_handles evs = [].
Proof.
  destruct st as [w tr].
  unfold SendSoftReset, WriteI2C, bind, kit_write, kit_read, printf, log, ret.
  cbn [world trace].
  destruct (IowKitRead handle (IowKitWrite handle (write_request SOFT_RESET) w))
    as [ack w1].
  destruct (negb (Z.land (byte_of ack 0) 128 =? 0));
    cbn [negb Z.eqb world trace fst snd].
  - eexists. split; [rewrite <- !app_assoc; reflexivity|reflexivity].
  - destruct (int8 (byte_of ack 0) =? 3); cbn [world trace fst snd];
      eexists; (split; [rewrite <- !app_assoc; reflexivity|reflexivity]).
Qed.

Lemma GetSensorId_enables_nothing handle st :
  exists evs,
    trace (snd (GetSensorId handle st)) = trace st ++ evs
    /\ enabled_handles evs = [].
Proof.
  destruct st as [w tr].
  unfold GetSensorId, WriteI2C, ReadI2c, bind, kit_write, kit_read,
    printf, log, ret.
  cbn [world trace].
  destruct (IowKitRead handle (IowKitWrite handle (write_request READ_ID) w))
    as [ack w1].
  destruct (negb (Z.land (byte_of ack 0) 128 =? 0));
    cbn [negb Z.eqb world trace fst snd].
  - eexists. split; [rewrite <- !app_assoc; reflexivity|reflexivity].
  - destruct (int8 (byte_of ack 0) =? 3); cbn [world trace fst snd].
    + destruct (IowKitRead handle (IowKitWrite handle (read_request 3) w1))
        as [answer w2].
      destruct (negb (Z.land (byte_of answer 0) 128 =? 0)) eqn:E;
        cbn [world trace fst snd].
      * apply negb_true_iff in E. rewrite E. cbn [world trace fst snd].
        eexists. split; [rewrite <- !app_assoc; reflexivity|reflexivity].
      * apply negb_false_iff in E. rewrite E.
        destruct (negb (CRC.VerifyChecksum (word_span answer 1)
                          (byte_of answer 3) =? 0));
          cbn [world trace fst snd];
          eexists; (split; [rewrite <- !app_assoc; reflexivity|reflexivity]).
    + eexists. split; [rewrite <- !app_assoc; reflexivity|reflexivity].
Qed.

Lemma InitializeSticksAndSensors_loop_enables (handles_table : list IOWKIT_HANDLE) :
  forall n sensors_table st,
  (n <= List.length handles_table)%nat ->
  exists evs,
    trace (snd (InitializeSticksAndSensors_loop handles_table n sensors_table st))
    = trace st ++ evs
    /\ enabled_handles evs = rev (firstn n handles_table).
Proof.
  induction n as [|n IH]; intros sensors_table st Hn.
  - exists []. cbn. rewrite app_nil_r. split; reflexivity.
  - cbn [InitializeSticksAndSensors_loop].
    destruct (nth_error handles_table n) as [handle|] eqn:Hh.
    2:{ apply nth_error_None in Hh. lia. }
    rewrite (firstn_snoc handles_table n handle Hh), rev_app_distr.
    cbn [rev app].
    unfold bind at 1. unfold EnableI2c at 1, kit_write at 1.
    unfold bind at 1.
    destruct (SendSoftReset_enables_nothing handle
                {| world := IowKitWrite handle enable_request (world st);
                   trace := trace st ++ [Written handle enable_request] |})
      as [e1 [H1 E1]].
    destruct (SendSoftReset handle _) as [r1 st1]. cbn [snd trace] in H1.
    unfold bind at 1.
    destruct (GetSensorId_enables_nothing handle st1) as [e2 [H2 E2]].
    destruct (GetSensorId handle st1) as [id st2]. cbn [snd] in H2.
    destruct (bind_stick (GetUsbStickSerialNumber handle) handle (fst id)
                sensors_table) as [bound notices].
    unfold bind at 1.
    destruct (IH bound st2 ltac:(lia)) as [e3 [H3 E3]].
    destruct (InitializeSticksAndSensors_loop handles_table n bound st2)
      as [r3 st3]. cbn [snd] in H3. unfold ret. cbn [snd].
    exists ([Written handle enable_request] ++ e1 ++ e2 ++ e3). split.
    + rewrite H3, H2, H1. rewrite <- !app_assoc. reflexivity.
    + rewrite !enabled_handles_app, E1, E2, E3. reflexivity.
Qed.

(** X28. Whatever the devices answer, [InitializeSticksAndSensors] switches
    the I2C bus on exactly once on every stick of the handle table, going
    from the last handle to the first; the soft reset and the identification
    never send that report again. *)
Theorem InitializeSticksAndSensors_enables_each_stick
    (handles_table : list IOWKIT_HANDLE) (sensors_table : list SHTW1_SENSOR) st :
  exists evs,
    trace (snd (InitializeSticksAndSensors handles_table sensors_table st))
    = trace st ++ evs
    /\ enabled_handles evs = rev handles_table.
Proof.
  unfold InitializeSticksAndSensors, bind.
  destruct (InitializeSticksAndSensors_loop_enables handles_table
              (List.length handles_table) sensors_table st (le_n _))
    as [evs [H E]].
  destruct (InitializeSticksAndSensors_loop handles_table _ sensors_table st)
    as [r st']. cbn [snd] in *. unfold ret. cbn [snd].
  exists evs. split; [exact H|]. rewrite E, firstn_all. reflexivity.
Qed.

End EnablingFacts.
